(** * NEO close-approach explorer: filters, limit, models, loaders, writers

    A shallow embedding of [filters.py], [models.py], [extract.py] and
    [write.py].  Python values are modelled by a small universe of
    dynamically typed scalars, exceptions by an explicit result type,
    floats by the IEEE 754 specification floats of the standard library
    (so that NaN compares the way the hardware does), iterators by
    explicit pull-based state, and object construction by a log of the
    instances built so far. *)

From Stdlib Require Import ZArith List String Bool Lia SpecFloat.
Import ListNotations.
Set Warnings "-register-all".
Local Open Scope string_scope.
Local Open Scope list_scope.
Local Open Scope Z_scope.

(* ================================================================== *)
(** ** The Python runtime the program relies on *)
(* ================================================================== *)

Module py.

(** Exceptions the modelled code can raise.  [UnsupportedCriterionError]
    is the subclass of [NotImplementedError] declared in [filters.py]. *)
Inductive exn : Set :=
| TypeError
| ValueError
| AttributeError
| KeyError
| UnsupportedCriterionError.

Inductive result (A : Type) : Type :=
| Ok (a : A)
| Raise (e : exn).
Arguments Ok {A} a.
Arguments Raise {A} e.

Definition bind {A B} (r : result A) (k : A -> result B) : result B :=
  match r with
  | Ok a => k a
  | Raise e => Raise e
  end.

Section MapM.
Context {A B : Type}.
Variable f : A -> result B.

(** Run [f] over a list, left to right, stopping at the first error. *)
Fixpoint mapM (l : list A) : result (list B) :=
  match l with
  | [] => Ok []
  | x :: r => bind (f x) (fun y => bind (mapM r) (fun ys => Ok (y :: ys)))
  end.

End MapM.

(** [datetime.date] and [datetime.datetime] (naive). *)
Record date : Set := mkdate { year : Z; month : Z; day : Z }.

Record datetime : Set :=
  mkdatetime { dt_date : date; hour : Z; minute : Z; second : Z }.

Definition date_compare (a b : date) : comparison :=
  match year a ?= year b with
  | Eq => match month a ?= month b with
          | Eq => day a ?= day b
          | c => c
          end
  | c => c
  end.

(** Floats are binary64 values; [float('nan')] is [S754_nan]. *)
Definition float := spec_float.
Definition nan : float := S754_nan.
Definition isnan (f : float) : bool :=
  match f with S754_nan => true | _ => false end.

(** The scalar values that flow through filters, loaders and writers. *)
Inductive pyval : Set :=
| VNone
| VBool (b : bool)
| VFloat (f : float)
| VStr (s : string)
| VDate (d : date).

Definition is_not_None (v : pyval) : bool :=
  match v with VNone => false | _ => true end.

(** [bool] is a subclass of [int]; mixed comparisons with floats are
    numeric, [True] being 1 and [False] being 0. *)
Definition float_of_bool (b : bool) : float :=
  if b then S754_finite false 4503599627370496 (-52) else S754_zero false.

Definition numeric (v : pyval) : option float :=
  match v with
  | VBool b => Some (float_of_bool b)
  | VFloat f => Some f
  | _ => None
  end.

(** Three-way comparison of two values of comparable types: [None]
    when the operands are unordered (a NaN is involved), and
    [Raise TypeError] when the types do not support ordering. *)
Definition compare (a b : pyval) : result (option comparison) :=
  match a, b with
  | VStr s, VStr t => Ok (Some (String.compare s t))
  | VDate d, VDate e => Ok (Some (date_compare d e))
  | _, _ =>
      match numeric a, numeric b with
      | Some x, Some y => Ok (SFcompare x y)
      | _, _ => Raise TypeError
      end
  end.

(** [a == b]: never raises; values of unrelated types are unequal. *)
Definition eqb (a b : pyval) : bool :=
  match a, b with
  | VNone, VNone => true
  | _, _ =>
      match compare a b with
      | Ok (Some Eq) => true
      | _ => false
      end
  end.

(** Python dictionaries keep insertion order. *)
Definition dict (V : Type) := list (string * V).

Fixpoint dict_get {V} (d : dict V) (k : string) : option V :=
  match d with
  | [] => None
  | (k', v) :: d' => if String.eqb k' k then Some v else dict_get d' k
  end.

(** [d[k] = v]: overwrite in place, or append a new key. *)
Fixpoint dict_set {V} (d : dict V) (k : string) (v : V) : dict V :=
  match d with
  | [] => [(k, v)]
  | (k', v') :: d' =>
      if String.eqb k' k then (k', v) :: d' else (k', v') :: dict_set d' k v
  end.

Definition keys {V} (d : dict V) : list string := map fst d.
Definition values {V} (d : dict V) : list V := map snd d.

(** [dict(zip(ks, vs))]. *)
Definition dict_of_pairs {V} (kvs : list (string * V)) : dict V :=
  fold_left (fun d kv => dict_set d (fst kv) (snd kv)) kvs [].

(** [d[k]]. *)
Definition getitem {V} (d : dict V) (k : string) : result V :=
  match dict_get d k with
  | Some v => Ok v
  | None => Raise KeyError
  end.

(** [bool(n)] for [n] an integer or [None]. *)
Definition truthy (n : option Z) : bool :=
  match n with
  | None => false
  | Some z => negb (z =? 0)
  end.

(** Compound values: what [serialize] returns and [json.dump] accepts. *)
Inductive pyobj : Type :=
| Scalar (v : pyval)
| List (l : list pyobj)
| Dict (d : list (string * pyobj)).

Definition of_name (name : option string) : pyobj :=
  match name with
  | None => Scalar VNone
  | Some s => Scalar (VStr s)
  end.

End py.

(** The [json] module, at the level of JSON documents.  A number carries
    the binary64 value it denotes: [json.dump] prints a float with
    [repr], which [json.load] reads back to the same value, and prints
    NaN as the token [NaN], which is read back as NaN. *)
Module json.

Inductive document : Type :=
| JNull
| JBool (b : bool)
| JNumber (f : py.float)
| JString (s : string)
| JArray (l : list document)
| JObject (members : list (string * document)).

(** [json.dump]: [None] to [null], [True]/[False] to [true]/[false],
    floats to numbers, [str] to strings, lists to arrays, dictionaries
    to objects; a [date] is not serializable. *)
Fixpoint dump (o : py.pyobj) : py.result document :=
  match o with
  | py.Scalar py.VNone => py.Ok JNull
  | py.Scalar (py.VBool b) => py.Ok (JBool b)
  | py.Scalar (py.VFloat f) => py.Ok (JNumber f)
  | py.Scalar (py.VStr s) => py.Ok (JString s)
  | py.Scalar (py.VDate _) => py.Raise py.TypeError
  | py.List l =>
      py.bind (py.mapM dump l) (fun js => py.Ok (JArray js))
  | py.Dict d =>
      py.bind (py.mapM (fun '(k, x) => py.bind (dump x) (fun j => py.Ok (k, j))) d)
              (fun ms => py.Ok (JObject ms))
  end.

(** [json.load]: the inverse table; a repeated member name keeps its
    last value. *)
Fixpoint load (j : document) : py.pyobj :=
  match j with
  | JNull => py.Scalar py.VNone
  | JBool b => py.Scalar (py.VBool b)
  | JNumber f => py.Scalar (py.VFloat f)
  | JString s => py.Scalar (py.VStr s)
  | JArray l => py.List (map load l)
  | JObject ms =>
      py.Dict (py.dict_of_pairs (map (fun '(k, x) => (k, load x)) ms))
  end.

End json.

(** [sys.maxsize] of a 64-bit build: the largest index a container
    or an [islice] bound can have. *)
Module sys.

Definition maxsize : Z := 9223372036854775807.

End sys.

(** [itertools.islice] over pull-based iterators. *)
Module itertools.

Section Iterators.
Context {T : Type}.

(** An iterator is either a generator, whose state is the list of the
    elements it has not computed yet, or an [islice] object around
    another iterator, with the number of elements it has passed on and
    its stop bound. *)
Inductive iterator : Type :=
| generator (pending : list T)
| islice_object (it : iterator) (cnt : Z) (stop : option Z).

(** [next(it)]: the element produced ([None] for [StopIteration]) and
    the iterator afterwards.  An [islice] object at its stop bound
    stops without touching the iterator it wraps. *)
Fixpoint next (it : iterator) : option T * iterator :=
  match it with
  | generator [] => (None, generator [])
  | generator (x :: xs) => (Some x, generator xs)
  | islice_object src cnt stop =>
      if match stop with Some s => s <=? cnt | None => false end
      then (None, islice_object src cnt stop)
      else match next src with
           | (Some x, src') => (Some x, islice_object src' (cnt + 1) stop)
           | (None, src') => (None, islice_object src' cnt stop)
           end
  end.

(** The elements of the innermost generator that are still unevaluated. *)
Fixpoint pending (it : iterator) : list T :=
  match it with
  | generator l => l
  | islice_object src _ _ => pending src
  end.

(** [k] calls of [next], whatever they return. *)
Fixpoint advance (k : nat) (it : iterator) : iterator :=
  match k with
  | O => it
  | S k' => advance k' (snd (next it))
  end.

(** Pull until [StopIteration], at most [k] elements. *)
Fixpoint take (k : nat) (it : iterator) : list T * iterator :=
  match k with
  | O => ([], it)
  | S k' =>
      match next it with
      | (Some x, it') => let (xs, it'') := take k' it' in (x :: xs, it'')
      | (None, it') => ([], it')
      end
  end.

(** [list(it)]: every element costs one pending element of the
    generator, so [List.length (pending it)] pulls reach the end. *)
Definition to_list (it : iterator) : list T :=
  fst (take (List.length (pending it)) it).

(** The elements an iterator has yet to yield. *)
Fixpoint contents (it : iterator) : list T :=
  match it with
  | generator l => l
  | islice_object src cnt stop =>
      match stop with
      | Some s => firstn (Z.to_nat (s - cnt)) (contents src)
      | None => contents src
      end
  end.

(** [islice(it, stop)]: the bound is checked when the object is built;
    it must be [None] or an integer with [0 <= stop <= sys.maxsize]. *)
Definition islice (it : iterator) (stop : option Z) : py.result iterator :=
  match stop with
  | Some s => if (s <? 0) || (sys.maxsize <? s) then py.Raise py.ValueError
              else py.Ok (islice_object it 0 stop)
  | None => py.Ok (islice_object it 0 None)
  end.

End Iterators.
Arguments iterator T : clear implicits.

End itertools.

(** The comparators of the [operator] module used as filter operators. *)
Module operator.

Inductive t : Set := eq | ne | lt | le | gt | ge.

Definition apply (o : t) (a b : py.pyval) : py.result bool :=
  match o with
  | eq => py.Ok (py.eqb a b)
  | ne => py.Ok (negb (py.eqb a b))
  | lt => py.bind (py.compare a b)
            (fun c => py.Ok match c with Some Lt => true | _ => false end)
  | le => py.bind (py.compare a b)
            (fun c => py.Ok match c with Some (Lt | Eq) => true | _ => false end)
  | gt => py.bind (py.compare a b)
            (fun c => py.Ok match c with Some Gt => true | _ => false end)
  | ge => py.bind (py.compare a b)
            (fun c => py.Ok match c with Some (Gt | Eq) => true | _ => false end)
  end.

End operator.

(* ================================================================== *)
(** ** models.py *)
(* ================================================================== *)

Module NearEarthObject.

(** [approaches] holds back-references to close approaches, as
    positions in the database's approach list. *)
Record t : Type := mk {
  designation : string;
  name : option string;
  diameter : py.float;
  hazardous : bool;
  approaches : list nat
}.

(** [NearEarthObject(designation, name, diameter, hazardous)]. *)
Definition init (designation : string) (name : option string)
    (diameter : py.float) (hazardous : bool) : t :=
  mk designation name diameter hazardous [].

Definition fullname (self : t) : string :=
  let name := match name self with
              | Some n => if (0 <? String.length n)%nat
                          then ("(" ++ n ++ ")")%string else ""
              | None => ""
              end in
  (designation self ++ name)%string.

Definition add_approach (self : t) (approach : nat) : t :=
  mk (designation self) (name self) (diameter self) (hazardous self)
     (approaches self ++ [approach]).

Definition serialize (self : t) : py.dict py.pyobj :=
  [ ("designation", py.Scalar (py.VStr (designation self)));
    ("name", py.of_name (name self));
    ("diameter_km", py.Scalar (py.VFloat (diameter self)));
    ("potentially_hazardous", py.Scalar (py.VBool (hazardous self))) ].

End NearEarthObject.

Module CloseApproach.

Record t : Type := mk {
  _designation : string;
  time : py.datetime;
  distance : py.float;
  velocity : py.float;
  neo : option NearEarthObject.t
}.

Section Helpers.
(** The two functions of [helpers.py] the class uses. *)
Variable cd_to_datetime : string -> py.result py.datetime.
Variable datetime_to_str : py.datetime -> string.

(** [CloseApproach(designation, time, distance, velocity)]: a calendar
    date string ([inl]) is converted, a [datetime] ([inr]) is kept. *)
Definition init (designation : string) (time : string + py.datetime)
    (distance velocity : py.float) : py.result t :=
  py.bind (match time with
           | inl s => cd_to_datetime s
           | inr dt => py.Ok dt
           end)
          (fun dt => py.Ok (mk designation dt distance velocity None)).

Definition time_str (self : t) : string := datetime_to_str (time self).

Definition serialize (self : t) : py.dict py.pyobj :=
  [ ("datetime_utc", py.Scalar (py.VStr (datetime_to_str (time self))));
    ("distance_au", py.Scalar (py.VFloat (distance self)));
    ("velocity_km_s", py.Scalar (py.VFloat (velocity self))) ].

End Helpers.

(** [self.set_neo(neo)], the state of [self] afterwards. *)
Definition set_neo (self : t) (neo : option NearEarthObject.t) : t :=
  match neo with
  | Some n => mk (_designation self) (time self) (distance self)
                 (velocity self) (Some n)
  | None => self
  end.

End CloseApproach.

(* ================================================================== *)
(** ** filters.py *)
(* ================================================================== *)

Module filters.

(** The class of a filter instance decides which [get] it runs. *)
Inductive class : Set :=
| AttributeFilter
| DateFilter
| DistanceFilter
| VelocityFilter
| DiameterFilter
| HazardousFilter.

(** A filter instance: its class and the two attributes [__init__]
    stores. *)
Record instance : Set := mk {
  cls : class;
  op : operator.t;
  value : py.pyval
}.

(** Constructing objects is an effect: a computation threads the log of
    the instances built so far, and may raise. *)
Definition M (A : Type) : Type := list instance -> py.result A * list instance.

Definition ret {A} (a : A) : M A := fun log => (py.Ok a, log).

Definition bind {A B} (m : M A) (k : A -> M B) : M B :=
  fun log =>
    match m log with
    | (py.Ok a, log') => k a log'
    | (py.Raise e, log') => (py.Raise e, log')
    end.

Notation "x <- m ;; k" := (bind m (fun x => k))
  (at level 100, m at next level, right associativity).

(** [cls(op, value)]: [__init__] stores both arguments and nothing else. *)
Definition new (c : class) (op : operator.t) (value : py.pyval) : M instance :=
  fun log => let self := mk c op value in (py.Ok self, log ++ [self]).

(** The [get] class methods. *)
Definition get (c : class) (approach : CloseApproach.t) : py.result py.pyval :=
  match c with
  | AttributeFilter => py.Raise py.UnsupportedCriterionError
  | DateFilter => py.Ok (py.VDate (py.dt_date (CloseApproach.time approach)))
  | DistanceFilter => py.Ok (py.VFloat (CloseApproach.distance approach))
  | VelocityFilter => py.Ok (py.VFloat (CloseApproach.velocity approach))
  | DiameterFilter =>
      match CloseApproach.neo approach with
      | Some neo => py.Ok (py.VFloat (NearEarthObject.diameter neo))
      | None => py.Raise py.AttributeError
      end
  | HazardousFilter =>
      match CloseApproach.neo approach with
      | Some neo => py.Ok (py.VBool (NearEarthObject.hazardous neo))
      | None => py.Raise py.AttributeError
      end
  end.

(** [self(approach)]. *)
Definition call (self : instance) (approach : CloseApproach.t) : py.result bool :=
  py.bind (get (cls self) approach)
          (fun attr => operator.apply (op self) attr (value self)).

Definition create_filters
    (date start_date end_date distance_min distance_max
     velocity_min velocity_max diameter_min diameter_max hazardous : py.pyval)
  : M (option (list (option instance))) :=
  let args := [date; start_date; end_date; distance_min; distance_max;
               velocity_min; velocity_max; diameter_min; diameter_max;
               hazardous] in
  let args_not_none := filter py.is_not_None args in
  if (List.length args_not_none =? 0)%nat then ret None
  else
    filterDateEqual <- new DateFilter operator.eq date ;;
    filterDateGe <- new DateFilter operator.ge start_date ;;
    filterDateLe <- new DateFilter operator.le end_date ;;
    filterDistanceGe <- new DistanceFilter operator.ge distance_min ;;
    filterDistanceLe <- new DistanceFilter operator.le distance_max ;;
    filterVelocityGe <- new VelocityFilter operator.ge velocity_min ;;
    filterVelocityLe <- new VelocityFilter operator.le velocity_max ;;
    filterDiameterGe <- new DiameterFilter operator.ge diameter_min ;;
    filterDiameterLe <- new DiameterFilter operator.le diameter_max ;;
    filterHazardous <- new HazardousFilter operator.eq hazardous ;;
    let filters := [filterDateEqual; filterDateGe; filterDateLe;
                    filterDistanceGe; filterDistanceLe;
                    filterVelocityGe; filterVelocityLe;
                    filterDiameterGe; filterDiameterLe;
                    filterHazardous] in
    let mapped_filters :=
      map (fun '(arg, filter) =>
             if py.is_not_None arg then Some filter else None)
          (combine args filters) in
    let list_mapped_filters := mapped_filters in
    let filters_not_none :=
      filter (fun x => match x with Some _ => true | None => false end)
             list_mapped_filters in
    ret (Some filters_not_none).

Definition limit {T} (iterator : itertools.iterator T) (n : option Z)
  : py.result (itertools.iterator T) :=
  if negb (py.truthy n) then py.Ok iterator
  else itertools.islice iterator n.

End filters.

(* ================================================================== *)
(** ** extract.py *)
(* ================================================================== *)

Module extract.

Section Loaders.
(** Python's [float(s)] on a string; it raises [ValueError] on text
    that is not a number. *)
Variable float : string -> py.result py.float.

(** The body of the loop of [load_neos]: one row of [csv.DictReader],
    a dictionary from column names to strings, to one object. *)
Definition neo_of_row (row : py.dict string) : py.result NearEarthObject.t :=
  py.bind (py.getitem row "pdes") (fun pdes =>
  py.bind (py.getitem row "name") (fun row_name =>
  let name := if (0 <? String.length row_name)%nat then Some row_name
              else None in
  py.bind (py.getitem row "diameter") (fun row_diameter =>
  py.bind (if (0 <? String.length row_diameter)%nat then float row_diameter
           else py.Ok py.nan) (fun diameter =>
  py.bind (py.getitem row "pha") (fun row_pha =>
  let pha := String.eqb row_pha "Y" in
  let neo := NearEarthObject.init pdes name diameter pha in
  py.Ok neo))))).

(** [for row in csv_reader: ...; neos.append(neo)]. *)
Fixpoint load_neos_loop (csv_reader : list (py.dict string))
    (neos : list NearEarthObject.t) : py.result (list NearEarthObject.t) :=
  match csv_reader with
  | [] => py.Ok neos
  | row :: rest =>
      py.bind (neo_of_row row) (fun neo => load_neos_loop rest (neos ++ [neo]))
  end.

(** [load_neos], on the rows the reader yields for the file. *)
Definition load_neos (csv_reader : list (py.dict string))
  : py.result (list NearEarthObject.t) :=
  load_neos_loop csv_reader [].

End Loaders.

End extract.

(* ================================================================== *)
(** ** write.py *)
(* ================================================================== *)

(** [csv.DictWriter], with cells kept as values. *)
Module csv.

Definition row := list py.pyobj.

Definition writeheader (fieldnames : list string) : row :=
  map (fun k => py.Scalar (py.VStr k)) fieldnames.

(** [writerow]: a key outside [fieldnames] is an error; a missing key
    is written as the empty string. *)
Definition writerow (fieldnames : list string) (rowdict : py.dict py.pyobj)
  : py.result row :=
  if forallb (fun k => existsb (String.eqb k) fieldnames) (py.keys rowdict)
  then py.Ok (map (fun k => match py.dict_get rowdict k with
                            | Some v => v
                            | None => py.Scalar (py.VStr "")
                            end) fieldnames)
  else py.Raise py.ValueError.

End csv.

Module write.

Section Writers.
Variable cd_to_datetime : string -> py.result py.datetime.
Variable datetime_to_str : py.datetime -> string.

(** [result.neo.attr]: an unresolved [neo] is [None], which has no
    attributes. *)
Definition neo_attr {A} (result : CloseApproach.t)
    (attr : NearEarthObject.t -> A) : py.result A :=
  match CloseApproach.neo result with
  | Some neo => py.Ok (attr neo)
  | None => py.Raise py.AttributeError
  end.

Definition fieldnames : list string :=
  [ "datetime_utc"; "distance_au"; "velocity_km_s"; "designation"; "name";
    "diameter_km"; "potentially_hazardous" ].

(** The two dictionaries both writers build for a result. *)
Definition serialized_neo (result : CloseApproach.t)
  : py.result (py.dict py.pyobj) :=
  py.bind (neo_attr result NearEarthObject.designation) (fun designation =>
  py.bind (neo_attr result NearEarthObject.name) (fun name =>
  py.bind (neo_attr result NearEarthObject.diameter) (fun diameter =>
  py.bind (neo_attr result NearEarthObject.hazardous) (fun hazardous =>
  py.Ok (NearEarthObject.serialize
           (NearEarthObject.init designation name diameter hazardous)))))).

Definition serialized_approach (result : CloseApproach.t)
  : py.result (py.dict py.pyobj) :=
  py.bind (neo_attr result NearEarthObject.designation) (fun designation =>
  py.bind (CloseApproach.init cd_to_datetime designation
             (inr (CloseApproach.time result))
             (CloseApproach.distance result)
             (CloseApproach.velocity result)) (fun approach =>
  py.Ok (CloseApproach.serialize datetime_to_str approach))).

(** The loop of [write_to_csv]: the rows written so far and how the
    loop ended. *)
Fixpoint write_to_csv_loop (results : list CloseApproach.t)
    (file : list csv.row) : list csv.row * py.result unit :=
  match results with
  | [] => (file, py.Ok tt)
  | result :: rest =>
      match
        py.bind (serialized_neo result) (fun neo =>
        py.bind (serialized_approach result) (fun approach =>
        let neo_values := py.values neo in
        let neo_keys := py.keys neo in
        let approach_values := py.values approach in
        let approach_keys := py.keys approach in
        let dict_keys := approach_keys ++ neo_keys in
        let dict_values := approach_values ++ neo_values in
        csv.writerow fieldnames
          (py.dict_of_pairs (combine dict_keys dict_values))))
      with
      | py.Ok r => write_to_csv_loop rest (file ++ [r])
      | py.Raise e => (file, py.Raise e)
      end
  end.

Definition write_to_csv (results : list CloseApproach.t)
  : list csv.row * py.result unit :=
  write_to_csv_loop results [csv.writeheader fieldnames].

(** The loop of [write_to_json], building [list]. *)
Fixpoint write_to_json_loop (results : list CloseApproach.t)
    (list : Datatypes.list py.pyobj) : py.result (Datatypes.list py.pyobj) :=
  match results with
  | [] => py.Ok list
  | result :: rest =>
      py.bind (serialized_neo result) (fun neo =>
      py.bind (serialized_approach result) (fun approach =>
      let approach := py.dict_set approach "neo" (py.Dict neo) in
      write_to_json_loop rest (list ++ [py.Dict approach])))
  end.

(** [write_to_json]: the document written to the file; when the loop
    raises, nothing has been dumped. *)
Definition write_to_json (results : list CloseApproach.t)
  : py.result json.document :=
  py.bind (write_to_json_loop results [])
          (fun list => json.dump (py.List list)).

End Writers.

End write.

(* ================================================================== *)
(** ** What the specification says [create_filters] returns *)
(* ================================================================== *)

Module builder_spec.

(** The criterion each of the ten parameters stands for, in parameter
    order: [date] is date equality, [start_date] is date [>=], and so
    on down to [hazardous], hazardous equality. *)
Definition criteria : list (filters.class * operator.t) :=
  [ (filters.DateFilter, operator.eq);
    (filters.DateFilter, operator.ge);
    (filters.DateFilter, operator.le);
    (filters.DistanceFilter, operator.ge);
    (filters.DistanceFilter, operator.le);
    (filters.VelocityFilter, operator.ge);
    (filters.VelocityFilter, operator.le);
    (filters.DiameterFilter, operator.ge);
    (filters.DiameterFilter, operator.le);
    (filters.HazardousFilter, operator.eq) ].

Definition criterion (f : filters.instance) : filters.class * operator.t :=
  (filters.cls f, filters.op f).

(** One predicate per set parameter, none for an unset one. *)
Definition selected (slots : list ((filters.class * operator.t) * py.pyval))
  : list filters.instance :=
  flat_map (fun '((c, o), arg) =>
              match arg with
              | py.VNone => []
              | _ => [filters.mk c o arg]
              end) slots.

(** The ten instances the constructor calls build, set or not. *)
Definition built (slots : list ((filters.class * operator.t) * py.pyval))
  : list filters.instance :=
  map (fun '((c, o), arg) => filters.mk c o arg) slots.

End builder_spec.

(* ================================================================== *)
(** ** What the specification says of loaded objects and written results *)
(* ================================================================== *)

(** What one object must look like for the row it was read from. *)
Definition loaded_from (float : string -> py.result py.float)
    (row : py.dict string) (neo : NearEarthObject.t) : Prop :=
  exists pdes name diameter pha : string,
    py.getitem row "pdes" = py.Ok pdes
    /\ py.getitem row "name" = py.Ok name
    /\ py.getitem row "diameter" = py.Ok diameter
    /\ py.getitem row "pha" = py.Ok pha
    /\ NearEarthObject.designation neo = pdes
    /\ (name = "" -> NearEarthObject.name neo = None)
    /\ (name <> "" -> NearEarthObject.name neo = Some name)
    /\ NearEarthObject.name neo <> Some ""
    /\ (diameter = "" -> NearEarthObject.diameter neo = py.nan)
    /\ (diameter <> "" -> float diameter = py.Ok (NearEarthObject.diameter neo))
    /\ (NearEarthObject.hazardous neo = true <-> pha = "Y")
    /\ NearEarthObject.approaches neo = [].

(** A row that can be loaded: the four columns are there and a diameter
    that is not empty is a number. *)
Definition loadable (float : string -> py.result py.float)
    (row : py.dict string) : Prop :=
  exists pdes name diameter pha : string,
    py.getitem row "pdes" = py.Ok pdes
    /\ py.getitem row "name" = py.Ok name
    /\ py.getitem row "diameter" = py.Ok diameter
    /\ py.getitem row "pha" = py.Ok pha
    /\ (diameter <> "" -> exists d, float diameter = py.Ok d).

(** The object a result refers to. *)
Definition resolved (result : CloseApproach.t) (o : NearEarthObject.t) : Prop :=
  CloseApproach.neo result = Some o.

(** The entry [write_to_json] appends for a result whose object is [o]. *)
Definition written_entry (datetime_to_str : py.datetime -> string)
    (result : CloseApproach.t) (o : NearEarthObject.t) : py.pyobj :=
  py.Dict
    [ ("datetime_utc",
       py.Scalar (py.VStr (CloseApproach.time_str datetime_to_str result)));
      ("distance_au", py.Scalar (py.VFloat (CloseApproach.distance result)));
      ("velocity_km_s", py.Scalar (py.VFloat (CloseApproach.velocity result)));
      ("neo", py.Dict (NearEarthObject.serialize o)) ].

(** The cells [write_to_csv] writes for such a result. *)
Definition written_row (datetime_to_str : py.datetime -> string)
    (result : CloseApproach.t) (o : NearEarthObject.t) : csv.row :=
  [ py.Scalar (py.VStr (CloseApproach.time_str datetime_to_str result));
    py.Scalar (py.VFloat (CloseApproach.distance result));
    py.Scalar (py.VFloat (CloseApproach.velocity result));
    py.Scalar (py.VStr (NearEarthObject.designation o));
    py.of_name (NearEarthObject.name o);
    py.Scalar (py.VFloat (NearEarthObject.diameter o));
    py.Scalar (py.VBool (NearEarthObject.hazardous o)) ].

(** A re-parsed entry reproduces a result: the approach's values under
    [datetime_utc], [distance_au] and [velocity_km_s], and the object's
    under [designation], [name], [diameter_km] and
    [potentially_hazardous] of the nested [neo] object. *)
Definition reproduces (datetime_to_str : py.datetime -> string)
    (result : CloseApproach.t) (entry : py.pyobj) : Prop :=
  exists (o : NearEarthObject.t) (d nd : py.dict py.pyobj),
    CloseApproach.neo result = Some o
    /\ entry = py.Dict d
    /\ py.keys d = ["datetime_utc"; "distance_au"; "velocity_km_s"; "neo"]
    /\ py.dict_get d "datetime_utc"
       = Some (py.Scalar (py.VStr (datetime_to_str (CloseApproach.time result))))
    /\ py.dict_get d "distance_au"
       = Some (py.Scalar (py.VFloat (CloseApproach.distance result)))
    /\ py.dict_get d "velocity_km_s"
       = Some (py.Scalar (py.VFloat (CloseApproach.velocity result)))
    /\ py.dict_get d "neo" = Some (py.Dict nd)
    /\ py.keys nd
       = ["designation"; "name"; "diameter_km"; "potentially_hazardous"]
    /\ py.dict_get nd "designation"
       = Some (py.Scalar (py.VStr (NearEarthObject.designation o)))
    /\ py.dict_get nd "name" = Some (py.of_name (NearEarthObject.name o))
    /\ py.dict_get nd "diameter_km"
       = Some (py.Scalar (py.VFloat (NearEarthObject.diameter o)))
    /\ py.dict_get nd "potentially_hazardous"
       = Some (py.Scalar (py.VBool (NearEarthObject.hazardous o))).

(* ================================================================== *)
(** ** A scenario: Eros and one close approach *)
(* ================================================================== *)

Module scenario.

(** 16.84 km, 0.15 au and 5.2 km/s as binary64 values. *)
Definition eros : NearEarthObject.t :=
  NearEarthObject.init "433" (Some "Eros")
    (S754_finite false 4740038607807447 (-48)) false.

Definition approach : CloseApproach.t :=
  CloseApproach.mk "433" (py.mkdatetime (py.mkdate 2027 4 30) 12 0 0)
    (S754_finite false 5404319552844595 (-55))
    (S754_finite false 5854679515581645 (-50)) (Some eros).

End scenario.

(* ================================================================== *)
(** ** filters.py: [__repr__] *)
(* ================================================================== *)

Module filters_repr.



Section Repr.
(** How an f-string formats the reference value. *)
Variable str : py.pyval -> string.


End Repr.

End filters_repr.

(* ================================================================== *)
(** ** Typed arguments of [create_filters] *)
(* ================================================================== *)

(** The main module passes dates for the three date options, floats for
    the six bounds and a boolean for the hazardous flag, or [None]. *)
Module typed.

Definition of_date (d : option py.date) : py.pyval :=
  match d with Some d => py.VDate d | None => py.VNone end.

Definition of_float (f : option py.float) : py.pyval :=
  match f with Some f => py.VFloat f | None => py.VNone end.

Definition of_bool (b : option bool) : py.pyval :=
  match b with Some b => py.VBool b | None => py.VNone end.

End typed.

(* ================================================================== *)
(** ** extract.py: [load_approaches] *)
(* ================================================================== *)

Module extract_approaches.

(** Indexing a row that is too short raises [IndexError]; everything
    else the loader can raise is an exception of [py.exn]. *)
Inductive error : Set :=
| IndexError
| Other (e : py.exn).

Definition result (A : Type) : Type := (error + A)%type.

Definition bind {A B} (r : result A) (k : A -> result B) : result B :=
  match r with
  | inr a => k a
  | inl e => inl e
  end.

Definition lift {A} (r : py.result A) : result A :=
  match r with
  | py.Ok a => inr a
  | py.Raise e => inl (Other e)
  end.

(** [content[i]]. *)
Definition item (content : list string) (i : nat) : result string :=
  match nth_error content i with
  | Some s => inr s
  | None => inl IndexError
  end.

Section Loaders.
Variable float : string -> py.result py.float.
Variable cd_to_datetime : string -> py.result py.datetime.

(** The body of the loop of [load_approaches]: one row of the [data]
    array, a list of strings, to one close approach. *)
Definition approach_of_content (content : list string)
  : result CloseApproach.t :=
  bind (item content 0) (fun designation =>
  bind (item content 3) (fun time =>
  bind (item content 4) (fun content4 =>
  bind (lift (float (if (0 <? String.length content4)%nat then content4
                     else "0"))) (fun distance =>
  bind (item content 7) (fun content7 =>
  bind (lift (float (if (0 <? String.length content7)%nat then content7
                     else "0"))) (fun velocity =>
  lift (CloseApproach.init cd_to_datetime designation (inl time)
          distance velocity))))))).

Fixpoint load_approaches_loop (content_list : list (list string))
    (approaches : list CloseApproach.t) : result (list CloseApproach.t) :=
  match content_list with
  | [] => inr approaches
  | content :: rest =>
      bind (approach_of_content content)
           (fun approach => load_approaches_loop rest (approaches ++ [approach]))
  end.

(** [load_approaches], on the dictionary [json.load] returns. *)
Definition load_approaches (data : py.dict (list (list string)))
  : result (list CloseApproach.t) :=
  bind (lift (py.getitem data "data")) (fun content_list =>
  load_approaches_loop content_list []).

End Loaders.

End extract_approaches.

(* ================================================================== *)
(** ** Facts about [create_filters] *)
(* ================================================================== *)

Section CreateFilters.
Import builder_spec.

Lemma filter_set_length (args : list py.pyval) :
  existsb py.is_not_None args = true ->
  (List.length (filter py.is_not_None args) =? 0)%nat = false.
Proof.
  induction args as [| a l IH]; simpl; [discriminate |].
  destruct (py.is_not_None a); simpl; [reflexivity | exact IH].
Qed.

Lemma filter_unset_length (args : list py.pyval) :
  existsb py.is_not_None args = false ->
  (List.length (filter py.is_not_None args) =? 0)%nat = true.
Proof.
  induction args as [| a l IH]; simpl; [reflexivity |].
  destruct (py.is_not_None a); simpl; [discriminate | exact IH].
Qed.

(** Dropping the [None] entries leaves the predicates of the set
    parameters, in parameter order. *)
Lemma drop_unset (slots : list ((filters.class * operator.t) * py.pyval)) :
  filter (fun x : option filters.instance =>
            match x with Some _ => true | None => false end)
         (map (fun '(arg, f) => if py.is_not_None arg then Some f else None)
              (combine (map snd slots) (built slots)))
  = map Some (selected slots).
Proof.
  induction slots as [| [[c o] arg] l IH]; [reflexivity |].
  simpl. destruct arg; simpl; rewrite IH; reflexivity.
Qed.

Lemma selected_length (slots : list ((filters.class * operator.t) * py.pyval)) :
  List.length (selected slots)
  = List.length (filter py.is_not_None (map snd slots)).
Proof.
  induction slots as [| [[c o] arg] l IH]; [reflexivity |].
  simpl. destruct arg; simpl; rewrite ?IH; reflexivity.
Qed.

Lemma selected_nonempty (slots : list ((filters.class * operator.t) * py.pyval)) :
  existsb py.is_not_None (map snd slots) = true -> selected slots <> [].
Proof.
  intros Hset Hnil. apply filter_set_length in Hset.
  rewrite <- selected_length, Hnil in Hset. discriminate.
Qed.

Lemma selected_In slots c o v :
  In (filters.mk c o v) (selected slots)
  <-> v <> py.VNone /\ In ((c, o), v) slots.
Proof.
  unfold selected. rewrite in_flat_map. split.
  - intros [[[c' o'] arg] [Hin Hf]].
    destruct arg; simpl in Hf; try contradiction;
      destruct Hf as [Hf | []]; inversion Hf; subst;
      (split; [discriminate | exact Hin]).
  - intros [Hv Hin]. exists ((c, o), v). split; [exact Hin |].
    destruct v; simpl; auto; now elim Hv.
Qed.

Lemma selected_set slots :
  Forall (fun f => filters.value f <> py.VNone) (selected slots).
Proof.
  apply Forall_forall. intros [c o v] Hin. simpl.
  apply selected_In in Hin. tauto.
Qed.

Lemma selected_criterion_In slots f :
  In f (selected slots) -> In (criterion f) (map fst slots).
Proof.
  destruct f as [c o v]. intros Hin. apply selected_In in Hin.
  destruct Hin as [_ Hin]. apply (in_map fst) in Hin. exact Hin.
Qed.

Lemma selected_NoDup slots :
  NoDup (map fst slots) -> NoDup (map criterion (selected slots)).
Proof.
  induction slots as [| [[c o] arg] l IH]; intros Hnd; [constructor |].
  inversion Hnd as [| k ks Hk Hks]; subst.
  assert (Hrest := IH Hks).
  destruct arg; simpl; try exact Hrest;
    (constructor; [| exact Hrest]);
    intros Hin; apply Hk; apply in_map_iff in Hin;
    destruct Hin as [inst [Hinst Hin]];
    apply selected_criterion_In in Hin;
    unfold criterion in Hin, Hinst; simpl in *;
    rewrite Hinst in Hin; exact Hin.
Qed.

Lemma criteria_NoDup : NoDup criteria.
Proof.
  unfold criteria.
  repeat (constructor; [simpl; intuition discriminate |]). constructor.
Qed.

(** What a call that is given at least one set parameter computes. *)
Lemma create_filters_run
    (date start_date end_date distance_min distance_max
     velocity_min velocity_max diameter_min diameter_max hazardous : py.pyval)
    (log : list filters.instance) :
  let args := [date; start_date; end_date; distance_min; distance_max;
               velocity_min; velocity_max; diameter_min; diameter_max;
               hazardous] in
  existsb py.is_not_None args = true ->
  filters.create_filters date start_date end_date distance_min distance_max
    velocity_min velocity_max diameter_min diameter_max hazardous log
  = (py.Ok (Some (map Some (selected (combine criteria args)))),
     log ++ built (combine criteria args)).
Proof.
  intros args Hset. unfold filters.create_filters.
  fold args. rewrite (filter_set_length args Hset).
  unfold filters.bind, filters.new, filters.ret. cbn iota beta.
  rewrite <- (drop_unset (combine criteria args)).
  repeat rewrite <- app_assoc. reflexivity.
Qed.

End CreateFilters.

(** C1 (amended).  For every call to [create_filters] in which at least
    one of the ten parameters is set, the returned collection holds
    exactly one predicate per set parameter and none for an unset one,
    in parameter order and with the mapping of [builder_spec.criteria]
    ([date] to date equality, [start_date] to date [>=], [end_date] to
    date [<=], the distance, velocity and diameter bounds to [>=] and
    [<=], [hazardous] to hazardous equality, [False] counting as set);
    no returned predicate has an unset reference value.  The call does
    construct a predicate for each of the ten parameters, the unset ones
    included, and drops those of the unset parameters before it
    returns. *)
Theorem create_filters_returns_set_predicates
    (date start_date end_date distance_min distance_max
     velocity_min velocity_max diameter_min diameter_max hazardous : py.pyval)
    (log : list filters.instance) :
  let args := [date; start_date; end_date; distance_min; distance_max;
               velocity_min; velocity_max; diameter_min; diameter_max;
               hazardous] in
  let run := filters.create_filters date start_date end_date
               distance_min distance_max velocity_min velocity_max
               diameter_min diameter_max hazardous log in
  existsb py.is_not_None args = true ->
  exists returned : list filters.instance,
    fst run = py.Ok (Some (map Some returned))
    /\ returned = builder_spec.selected (combine builder_spec.criteria args)
    /\ List.length returned = List.length (filter py.is_not_None args)
    /\ (forall c o v,
          In (filters.mk c o v) returned
          <-> v <> py.VNone /\ In ((c, o), v) (combine builder_spec.criteria args))
    /\ NoDup (map builder_spec.criterion returned)
    /\ Forall (fun f => filters.value f <> py.VNone) returned
    /\ snd run = log ++ builder_spec.built (combine builder_spec.criteria args).
Proof.
  intros args run Hset.
  exists (builder_spec.selected (combine builder_spec.criteria args)).
  unfold run.
  rewrite (create_filters_run date start_date end_date distance_min
             distance_max velocity_min velocity_max diameter_min diameter_max
             hazardous log Hset).
  fold args. cbn [fst snd].
  split; [reflexivity |].
  split; [reflexivity |].
  split; [rewrite selected_length; reflexivity |].
  split; [intros c o v; apply selected_In |].
  split; [apply selected_NoDup; exact criteria_NoDup |].
  split; [apply selected_set | reflexivity].
Qed.

Lemma create_filters_returns_set_predicates_witness :
  exists returned : list filters.instance,
    fst (filters.create_filters py.VNone py.VNone py.VNone py.VNone py.VNone
           py.VNone py.VNone (py.VFloat (S754_zero false)) py.VNone
           (py.VBool false) [])
    = py.Ok (Some (map Some returned))
    /\ returned = [ filters.mk filters.DiameterFilter operator.ge
                      (py.VFloat (S754_zero false));
                    filters.mk filters.HazardousFilter operator.eq
                      (py.VBool false) ].
Proof.
  destruct (create_filters_returns_set_predicates
              py.VNone py.VNone py.VNone py.VNone py.VNone
              py.VNone py.VNone (py.VFloat (S754_zero false)) py.VNone
              (py.VBool false) [] eq_refl)
    as [returned [Hrun [Hsel _]]].
  exists returned. split; [exact Hrun | exact Hsel].
Defined.

(** C1, counterexample to the clause that no placeholder is
    constructed: with only [hazardous=False] set, the call constructs
    predicates whose reference value is unset, such as
    [DateFilter(operator.eq, None)]. *)
Lemma create_filters_constructs_placeholders :
  let constructed :=
    snd (filters.create_filters py.VNone py.VNone py.VNone py.VNone py.VNone
           py.VNone py.VNone py.VNone py.VNone (py.VBool false) []) in
  In (filters.mk filters.DateFilter operator.eq py.VNone) constructed
  /\ ~ Forall (fun f => filters.value f <> py.VNone) constructed.
Proof.
  simpl. split; [left; reflexivity |].
  intros H. inversion H as [| f l Hf _]; subst. now apply Hf.
Qed.

(** C2.  [create_filters] with all ten parameters unset returns [None]
    and constructs nothing; no call ever returns the empty collection;
    and [None] and the empty collection are different values. *)
Theorem create_filters_unset_returns_None :
  (forall log,
      filters.create_filters py.VNone py.VNone py.VNone py.VNone py.VNone
        py.VNone py.VNone py.VNone py.VNone py.VNone log
      = (py.Ok None, log))
  /\ (forall date start_date end_date distance_min distance_max
        velocity_min velocity_max diameter_min diameter_max hazardous log,
        fst (filters.create_filters date start_date end_date distance_min
               distance_max velocity_min velocity_max diameter_min
               diameter_max hazardous log)
        <> py.Ok (Some []))
  /\ @None (list (option filters.instance)) <> Some [].
Proof.
  split; [reflexivity | split; [| discriminate]].
  intros date start_date end_date distance_min distance_max
    velocity_min velocity_max diameter_min diameter_max hazardous log.
  set (args := [date; start_date; end_date; distance_min; distance_max;
                velocity_min; velocity_max; diameter_min; diameter_max;
                hazardous]).
  destruct (existsb py.is_not_None args) eqn:Hset.
  - rewrite (create_filters_run date start_date end_date distance_min
               distance_max velocity_min velocity_max diameter_min
               diameter_max hazardous log Hset).
    fold args. cbn [fst]. intros Heq.
    injection Heq as Hmap. apply map_eq_nil in Hmap.
    exact (selected_nonempty (combine builder_spec.criteria args) Hset Hmap).
  - unfold filters.create_filters. fold args.
    rewrite (filter_unset_length args Hset). simpl. discriminate.
Qed.

(** C5 (amended).  Constructing the base predicate succeeds, for every
    operator and reference value: the constructor only stores the two.
    Invoking the instance on any approach raises the unsupported
    criterion error. *)
Theorem AttributeFilter_base_call_unsupported
    (op : operator.t) (value : py.pyval) (log : list filters.instance) :
  exists self,
    filters.new filters.AttributeFilter op value log = (py.Ok self, log ++ [self])
    /\ self = filters.mk filters.AttributeFilter op value
    /\ forall approach,
         filters.call self approach = py.Raise py.UnsupportedCriterionError.
Proof.
  exists (filters.mk filters.AttributeFilter op value).
  repeat split.
Qed.

(** C5, counterexample to the clause that construction fails:
    constructing the base predicate returns an instance and raises
    nothing. *)
Lemma AttributeFilter_base_constructs :
  fst (filters.new filters.AttributeFilter operator.le
         (py.VFloat (S754_zero false)) [])
  = py.Ok (filters.mk filters.AttributeFilter operator.le
             (py.VFloat (S754_zero false)))
  /\ fst (filters.new filters.AttributeFilter operator.le
            (py.VFloat (S754_zero false)) [])
     <> py.Raise py.UnsupportedCriterionError.
Proof.
  split; [reflexivity | discriminate].
Qed.

(* ================================================================== *)
(** ** Diameter filters and the NaN sentinel *)
(* ================================================================== *)



Lemma eqb_nan (v : py.pyval) : py.eqb (py.VFloat py.nan) v = false.
Proof.
  destruct v; reflexivity.
Qed.

Lemma isnan_nan (f : py.float) : py.isnan f = true -> f = py.nan.
Proof.
  destruct f; simpl; intros H; try discriminate; reflexivity.
Qed.




(* ================================================================== *)
(** ** Iterators, [islice] and [limit] *)
(* ================================================================== *)

Section IteratorFacts.
Context {T : Type}.
Implicit Types it : itertools.iterator T.

(** One [next] yields the head of the contents and leaves the tail. *)
Lemma next_contents it :
  match itertools.contents it with
  | [] => fst (itertools.next it) = None
          /\ itertools.contents (snd (itertools.next it)) = []
  | x :: xs => fst (itertools.next it) = Some x
               /\ itertools.contents (snd (itertools.next it)) = xs
  end.
Proof.
  induction it as [l | src IH cnt stop].
  - destruct l; simpl; split; reflexivity.
  - cbn [itertools.next itertools.contents].
    destruct stop as [s |].
    + destruct (s <=? cnt) eqn:Hstop.
      * apply Z.leb_le in Hstop.
        cbn [fst snd itertools.contents].
        replace (Z.to_nat (s - cnt)) with 0%nat by lia.
        simpl. split; reflexivity.
      * apply Z.leb_gt in Hstop.
        destruct (itertools.next src) as [[x |] src'] eqn:Hn;
          cbn [fst snd itertools.contents] in *;
          destruct (itertools.contents src) as [| y ys];
          destruct IH as [H1 H2]; try discriminate.
        -- replace (Z.to_nat (s - cnt))
             with (S (Z.to_nat (s - (cnt + 1)))) by lia.
           injection H1 as ->. rewrite H2. simpl. split; reflexivity.
        -- rewrite H2, !firstn_nil. split; reflexivity.
    + destruct (itertools.next src) as [[x |] src'] eqn:Hn;
        cbn [fst snd itertools.contents] in *;
        destruct (itertools.contents src) as [| y ys];
        destruct IH as [H1 H2]; try discriminate.
      * injection H1 as ->. rewrite H2. split; reflexivity.
      * rewrite H2. split; reflexivity.
Qed.

Lemma next_Some it x it' :
  itertools.next it = (Some x, it') ->
  itertools.contents it = x :: itertools.contents it'.
Proof.
  intros Hn. pose proof (next_contents it) as H. rewrite Hn in H.
  destruct (itertools.contents it); simpl in H; destruct H as [H1 H2];
    [discriminate | injection H1 as ->; rewrite H2; reflexivity].
Qed.

Lemma next_None it it' :
  itertools.next it = (None, it') ->
  itertools.contents it = [] /\ itertools.contents it' = [].
Proof.
  intros Hn. pose proof (next_contents it) as H. rewrite Hn in H.
  destruct (itertools.contents it); simpl in H; destruct H as [H1 H2];
    [split; [reflexivity | exact H2] | discriminate].
Qed.

(** An iterator cannot yield more than its generator still holds. *)
Lemma contents_le_pending it :
  (List.length (itertools.contents it) <= List.length (itertools.pending it))%nat.
Proof.
  induction it as [l | src IH cnt stop]; simpl; [lia |].
  destruct stop as [s |]; [| exact IH].
  rewrite length_firstn. lia.
Qed.

Lemma take_contents (k : nat) it :
  fst (itertools.take k it) = firstn k (itertools.contents it).
Proof.
  revert it. induction k as [| k IH]; intros it; [reflexivity |].
  cbn [itertools.take].
  destruct (itertools.next it) as [[x |] it'] eqn:Hn.
  - rewrite (next_Some _ _ _ Hn). specialize (IH it').
    destruct (itertools.take k it') as [xs it'']. simpl in *.
    rewrite IH. reflexivity.
  - destruct (next_None _ _ Hn) as [-> _]. reflexivity.
Qed.

(** [list(it)] is the contents of [it]. *)
Lemma to_list_contents it : itertools.to_list it = itertools.contents it.
Proof.
  unfold itertools.to_list. rewrite take_contents.
  apply firstn_all2. apply contents_le_pending.
Qed.

(** After [list(it)] the iterator is exhausted. *)
Lemma take_exhausts (k : nat) it :
  (List.length (itertools.contents it) <= k)%nat ->
  itertools.contents (snd (itertools.take k it)) = [].
Proof.
  revert it. induction k as [| k IH]; intros it Hlen.
  - simpl. destruct (itertools.contents it); [reflexivity | simpl in Hlen; lia].
  - cbn [itertools.take].
    destruct (itertools.next it) as [[x |] it'] eqn:Hn.
    + rewrite (next_Some _ _ _ Hn) in Hlen. simpl in Hlen.
      specialize (IH it'). destruct (itertools.take k it') as [xs it''].
      simpl in *. apply IH. lia.
    + simpl. apply (next_None _ _ Hn).
Qed.

Lemma to_list_complete it :
  fst (itertools.next
         (snd (itertools.take (List.length (itertools.pending it)) it)))
  = None.
Proof.
  pose proof (take_exhausts (List.length (itertools.pending it)) it
                (contents_le_pending it)) as Hc.
  pose proof (next_contents
                (snd (itertools.take (List.length (itertools.pending it)) it)))
    as H.
  rewrite Hc in H. apply H.
Qed.

(** A [next] that stops leaves the generator as it was. *)
Lemma next_None_pending it :
  fst (itertools.next it) = None ->
  itertools.pending (snd (itertools.next it)) = itertools.pending it.
Proof.
  induction it as [l | src IH cnt stop].
  - destruct l; simpl; [reflexivity | discriminate].
  - cbn [itertools.next].
    destruct (match stop with Some s => s <=? cnt | None => false end);
      [reflexivity |].
    destruct (itertools.next src) as [[x |] src'] eqn:Hn; simpl in *;
      [discriminate | intros _; apply IH; reflexivity].
Qed.

Lemma advance_exhausted (k : nat) it :
  itertools.contents it = [] ->
  itertools.pending (itertools.advance k it) = itertools.pending it.
Proof.
  revert it. induction k as [| k IH]; intros it Hc; [reflexivity |].
  cbn [itertools.advance].
  pose proof (next_contents it) as H. rewrite Hc in H. destruct H as [H1 H2].
  rewrite (IH _ H2). apply next_None_pending. exact H1.
Qed.

(** [k] pulls on an [islice] object pull the wrapped iterator at most
    as many times as the bound leaves room for. *)
Lemma advance_islice (k : nat) it (cnt s : Z) :
  itertools.pending
    (itertools.advance k (itertools.islice_object it cnt (Some s)))
  = itertools.pending
      (itertools.advance (Nat.min k (Z.to_nat (s - cnt))) it).
Proof.
  revert it cnt. induction k as [| k IH]; intros it cnt; [reflexivity |].
  cbn [itertools.advance itertools.next].
  destruct (s <=? cnt) eqn:Hstop.
  - apply Z.leb_le in Hstop. cbn [snd]. rewrite IH.
    replace (Z.to_nat (s - cnt)) with 0%nat by lia.
    rewrite !Nat.min_0_r. reflexivity.
  - apply Z.leb_gt in Hstop.
    replace (Z.to_nat (s - cnt)) with (S (Z.to_nat (s - (cnt + 1)))) by lia.
    cbn [Nat.min itertools.advance].
    destruct (itertools.next it) as [[x |] it'] eqn:Hn; cbn [snd].
    + apply IH.
    + rewrite IH. destruct (next_None _ _ Hn) as [_ Hc].
      rewrite !advance_exhausted by exact Hc. reflexivity.
Qed.

Lemma advance_generator (k : nat) (l : list T) :
  itertools.pending (itertools.advance k (itertools.generator l)) = skipn k l.
Proof.
  revert l. induction k as [| k IH]; intros l; [reflexivity |].
  destruct l as [| x xs]; cbn [itertools.advance itertools.next snd].
  - rewrite IH. destruct k; reflexivity.
  - apply IH.
Qed.

End IteratorFacts.

Lemma limit_within_bound (T : Type) (it : itertools.iterator T) (n : Z) :
  0 < n -> n <= sys.maxsize ->
  filters.limit it (Some n) = py.Ok (itertools.islice_object it 0 (Some n)).
Proof.
  intros Hpos Hmax. unfold filters.limit, py.truthy, itertools.islice.
  destruct (n =? 0) eqn:H0; [apply Z.eqb_eq in H0; lia |].
  destruct (n <? 0) eqn:Hneg; [apply Z.ltb_lt in Hneg; lia |].
  destruct (sys.maxsize <? n) eqn:Hbig; [apply Z.ltb_lt in Hbig; lia |].
  reflexivity.
Qed.

Lemma limit_beyond_bound (T : Type) (it : itertools.iterator T) (n : Z) :
  sys.maxsize < n -> filters.limit it (Some n) = py.Raise py.ValueError.
Proof.
  intros Hbig. unfold filters.limit, py.truthy, itertools.islice.
  assert (Hpos : 0 < n) by (unfold sys.maxsize in Hbig; lia).
  destruct (n =? 0) eqn:H0; [apply Z.eqb_eq in H0; lia |].
  destruct (n <? 0) eqn:Hneg; [apply Z.ltb_lt in Hneg; lia |].
  destruct (sys.maxsize <? n) eqn:Hmax; [reflexivity |].
  apply Z.ltb_ge in Hmax. lia.
Qed.

(** C4 (amended).  [limit(seq, 0)] and [limit(seq, None)] return [seq]
    itself.  For [0 < n <= sys.maxsize], [limit(seq, n)] yields the
    first [n] elements of [seq] in order: exactly [n] of them when
    [seq] is longer than [n], all of [seq] when it is not.  Building
    the limited iterator evaluates nothing, and [k] pulls on it evaluate
    what [min k n] pulls on [seq] evaluate, so no element beyond the
    [n]-th is ever forced; over a generator, the elements from the
    [n]-th on stay pending.  For [n > sys.maxsize] the call raises
    [ValueError], which [islice] raises for such a bound. *)
Theorem limit_passes_or_truncates (T : Type) (seq : itertools.iterator T) :
  filters.limit seq (Some 0) = py.Ok seq
  /\ filters.limit seq None = py.Ok seq
  /\ (forall n : Z, 0 < n -> n <= sys.maxsize ->
      exists limited : itertools.iterator T,
        filters.limit seq (Some n) = py.Ok limited
        /\ itertools.to_list limited
           = firstn (Z.to_nat n) (itertools.to_list seq)
        /\ (n < Z.of_nat (List.length (itertools.to_list seq)) ->
            List.length (itertools.to_list limited) = Z.to_nat n)
        /\ (Z.of_nat (List.length (itertools.to_list seq)) <= n ->
            itertools.to_list limited = itertools.to_list seq)
        /\ itertools.pending limited = itertools.pending seq
        /\ (forall k : nat,
              itertools.pending (itertools.advance k limited)
              = itertools.pending
                  (itertools.advance (Nat.min k (Z.to_nat n)) seq))
        /\ (forall (l : list T) (k : nat),
              seq = itertools.generator l ->
              itertools.pending (itertools.advance k limited)
              = skipn (Nat.min k (Z.to_nat n)) l))
  /\ (forall n : Z, sys.maxsize < n ->
      filters.limit seq (Some n) = py.Raise py.ValueError).
Proof.
  split; [reflexivity | split; [reflexivity |]].
  split; [| intros n Hbig; apply limit_beyond_bound; exact Hbig].
  intros n Hn Hmax.
  exists (itertools.islice_object seq 0 (Some n)).
  assert (Hlist : itertools.to_list (itertools.islice_object seq 0 (Some n))
                  = firstn (Z.to_nat n) (itertools.to_list seq)).
  { rewrite !to_list_contents. simpl. rewrite Z.sub_0_r. reflexivity. }
  assert (Hadv : forall k : nat,
             itertools.pending
               (itertools.advance k (itertools.islice_object seq 0 (Some n)))
             = itertools.pending
                 (itertools.advance (Nat.min k (Z.to_nat n)) seq)).
  { intros k. rewrite advance_islice, Z.sub_0_r. reflexivity. }
  split; [apply limit_within_bound; assumption |].
  split; [exact Hlist |].
  split; [intros Hlt; rewrite Hlist, length_firstn; lia |].
  split; [intros Hge; rewrite Hlist; apply firstn_all2; lia |].
  split; [reflexivity |].
  split; [exact Hadv |].
  intros l k ->. rewrite Hadv. apply advance_generator.
Qed.

Lemma limit_passes_or_truncates_witness :
  exists limited : itertools.iterator Z,
    filters.limit (itertools.generator [10; 20; 30]) (Some 2) = py.Ok limited
    /\ itertools.to_list limited = [10; 20]
    /\ itertools.pending (itertools.advance 5 limited) = [30].
Proof.
  assert (Hpos : 0 < 2) by reflexivity.
  assert (Hmax : 2 <= sys.maxsize) by (vm_compute; discriminate).
  destruct (proj1 (proj2 (proj2 (limit_passes_or_truncates Z
                                   (itertools.generator [10; 20; 30]))))
              2 Hpos Hmax)
    as [limited [Hlim [Hlist [_ [_ [_ [_ Hgen]]]]]]].
  exists limited. split; [exact Hlim |]. split; [exact Hlist |].
  exact (Hgen [10; 20; 30] 5%nat eq_refl).
Defined.

(** C4, counterexample for a bound at or above the length of the
    sequence: [limit(seq, 2**63)] over a three-element sequence raises
    [ValueError]; it does not yield the sequence. *)
Lemma limit_beyond_maxsize_raises :
  filters.limit (itertools.generator [10; 20; 30]) (Some (2 ^ 63))
  = py.Raise py.ValueError
  /\ Z.of_nat (List.length (itertools.to_list (itertools.generator [10; 20; 30])))
     <= 2 ^ 63
  /\ forall limited : itertools.iterator Z,
       filters.limit (itertools.generator [10; 20; 30]) (Some (2 ^ 63))
       <> py.Ok limited.
Proof.
  split; [reflexivity |]. split; [vm_compute; discriminate |].
  intros limited H. vm_compute in H. discriminate.
Qed.

(** C10.  For every negative [n], [limit(seq, n)] raises [ValueError]:
    a negative number is truthy, so the call reaches [islice], which
    rejects the bound; the sequence is neither passed through nor
    truncated. *)
Theorem limit_negative_raises (T : Type) (seq : itertools.iterator T) (n : Z) :
  n < 0 ->
  filters.limit seq (Some n) = py.Raise py.ValueError
  /\ forall it : itertools.iterator T, filters.limit seq (Some n) <> py.Ok it.
Proof.
  intros Hn.
  assert (H : filters.limit seq (Some n) = py.Raise py.ValueError).
  { unfold filters.limit, py.truthy, itertools.islice.
    destruct (n =? 0) eqn:H0; [apply Z.eqb_eq in H0; lia |].
    destruct (n <? 0) eqn:Hneg; [reflexivity | apply Z.ltb_ge in Hneg; lia]. }
  split; [exact H |]. intros it. rewrite H. discriminate.
Qed.

Lemma limit_negative_raises_witness :
  filters.limit (itertools.generator [10; 20; 30]) (Some (-1))
  = py.Raise py.ValueError.
Proof.
  apply (limit_negative_raises Z (itertools.generator [10; 20; 30]) (-1)).
  reflexivity.
Defined.

(* ================================================================== *)
(** ** [CloseApproach.set_neo] *)
(* ================================================================== *)

(** C9.  [set_neo(None)], which is also [set_neo()], leaves the approach
    as it was.  [set_neo] changes the [neo] field only when it is given
    an object, which then is the new value; a resolved reference stays
    resolved; and no other field is touched. *)
Theorem set_neo_None_keeps_neo :
  (forall self : CloseApproach.t, CloseApproach.set_neo self None = self)
  /\ (forall self neo,
        CloseApproach.neo (CloseApproach.set_neo self neo)
        <> CloseApproach.neo self ->
        neo <> None
        /\ CloseApproach.neo (CloseApproach.set_neo self neo) = neo)
  /\ (forall self neo,
        CloseApproach.neo self <> None ->
        CloseApproach.neo (CloseApproach.set_neo self neo) <> None)
  /\ (forall self neo,
        CloseApproach._designation (CloseApproach.set_neo self neo)
        = CloseApproach._designation self
        /\ CloseApproach.time (CloseApproach.set_neo self neo)
           = CloseApproach.time self
        /\ CloseApproach.distance (CloseApproach.set_neo self neo)
           = CloseApproach.distance self
        /\ CloseApproach.velocity (CloseApproach.set_neo self neo)
           = CloseApproach.velocity self).
Proof.
  split; [reflexivity |].
  split; [intros self [n |] H; simpl in *;
          [split; [discriminate | reflexivity] | now elim H] |].
  split; [intros self [n |] H; simpl; [discriminate | exact H] |].
  intros self [n |]; simpl; repeat split.
Qed.

Lemma set_neo_None_keeps_neo_witness :
  CloseApproach.neo (CloseApproach.set_neo scenario.approach None) <> None.
Proof.
  apply (proj1 (proj2 (proj2 set_neo_None_keeps_neo)) scenario.approach None).
  simpl. discriminate.
Defined.

(* ================================================================== *)
(** ** [load_neos] *)
(* ================================================================== *)

Lemma length_pos_false (s : string) :
  (0 <? String.length s)%nat = false <-> s = "".
Proof.
  destruct s; simpl; split; intros H; try reflexivity; discriminate.
Qed.

Lemma length_pos_true (s : string) :
  (0 <? String.length s)%nat = true <-> s <> "".
Proof.
  destruct s; simpl; split; intros H; try reflexivity; try discriminate.
  now elim H.
Qed.

Section LoadNeos.
Variable float : string -> py.result py.float.

Lemma neo_of_row_loaded (row : py.dict string) (neo : NearEarthObject.t) :
  extract.neo_of_row float row = py.Ok neo -> loaded_from float row neo.
Proof.
  unfold extract.neo_of_row, loaded_from.
  destruct (py.getitem row "pdes") as [pdes |]; [| discriminate].
  destruct (py.getitem row "name") as [name |]; [| discriminate].
  destruct (py.getitem row "diameter") as [diameter |]; [| discriminate].
  cbn [py.bind].
  destruct (0 <? String.length diameter)%nat eqn:Hd.
  - destruct (float diameter) as [d |] eqn:Hf; [| discriminate].
    cbn [py.bind].
    destruct (py.getitem row "pha") as [pha |]; [| discriminate].
    cbn [py.bind]. intros H. injection H as <-.
    exists pdes, name, diameter, pha. simpl.
    apply length_pos_true in Hd.
    repeat (split; [reflexivity |]).
    split; [intros ->; reflexivity |].
    split; [intros Hn; apply length_pos_true in Hn; rewrite Hn; reflexivity |].
    split; [destruct name; simpl; discriminate |].
    split; [intros ->; now elim Hd |].
    split; [intros _; exact Hf |].
    split; [apply String.eqb_eq | reflexivity].
  - cbn [py.bind].
    destruct (py.getitem row "pha") as [pha |]; [| discriminate].
    cbn [py.bind]. intros H. injection H as <-.
    exists pdes, name, diameter, pha. simpl.
    apply length_pos_false in Hd.
    repeat (split; [reflexivity |]).
    split; [intros ->; reflexivity |].
    split; [intros Hn; apply length_pos_true in Hn; rewrite Hn; reflexivity |].
    split; [destruct name; simpl; discriminate |].
    split; [intros _; reflexivity |].
    split; [intros Hne; now elim Hne |].
    split; [apply String.eqb_eq | reflexivity].
Qed.

Lemma neo_of_row_total (row : py.dict string) :
  loadable float row <-> exists neo, extract.neo_of_row float row = py.Ok neo.
Proof.
  split.
  - intros [pdes [name [diameter [pha [H1 [H2 [H3 [H4 H5]]]]]]]].
    unfold extract.neo_of_row. rewrite H1, H2, H3, H4. cbn [py.bind].
    destruct (0 <? String.length diameter)%nat eqn:Hd.
    + apply length_pos_true in Hd. destruct (H5 Hd) as [d ->].
      cbn [py.bind]. eexists. reflexivity.
    + cbn [py.bind]. eexists. reflexivity.
  - intros [neo H]. apply neo_of_row_loaded in H.
    destruct H as [pdes [name [diameter [pha
      [H1 [H2 [H3 [H4 [_ [_ [_ [_ [_ [H5 _]]]]]]]]]]]]]].
    exists pdes, name, diameter, pha. repeat (split; [assumption |]).
    intros Hne. eexists. apply H5. exact Hne.
Qed.

(** The loop appends one object per row, in row order, or stops at the
    first row that cannot be loaded. *)
Lemma load_neos_loop_spec (rows : list (py.dict string))
    (acc neos : list NearEarthObject.t) :
  extract.load_neos_loop float rows acc = py.Ok neos
  <-> exists new, neos = acc ++ new
                  /\ Forall2 (fun row neo =>
                                extract.neo_of_row float row = py.Ok neo)
                             rows new.
Proof.
  revert acc. induction rows as [| row rest IH]; intros acc; simpl.
  - split.
    + intros H. injection H as <-. exists []. rewrite app_nil_r.
      split; [reflexivity | constructor].
    + intros [new [-> H]]. inversion H. rewrite app_nil_r. reflexivity.
  - destruct (extract.neo_of_row float row) as [neo |] eqn:Hrow;
      cbn [py.bind].
    + rewrite IH. split.
      * intros [new [-> H]]. exists (neo :: new). rewrite <- app_assoc.
        split; [reflexivity | constructor; assumption].
      * intros [new [-> H]]. inversion H as [| r n rs ns Hn Hrest]; subst.
        rewrite Hrow in Hn. injection Hn as <-.
        exists ns. rewrite <- app_assoc. split; [reflexivity | exact Hrest].
    + split; [discriminate |].
      intros [new [_ H]]. inversion H as [| r n rs ns Hn Hrest]; subst.
      rewrite Hrow in Hn. discriminate.
Qed.

(** C7.  [load_neos] returns one object per row, in row order, exactly
    when every row has the four columns and every diameter that is not
    empty is a number.  For every row loaded: an empty diameter string
    gives NaN and any other the float it parses to; an empty name
    string gives [None] and any other the name itself, so a loaded name
    is never the empty string; and the object is hazardous exactly when
    the [pha] column is the string [Y]. *)
Theorem load_neos_fields (csv_reader : list (py.dict string)) :
  (Forall (loadable float) csv_reader
   <-> exists neos, extract.load_neos float csv_reader = py.Ok neos)
  /\ forall neos,
       extract.load_neos float csv_reader = py.Ok neos ->
       Forall2 (loaded_from float) csv_reader neos.
Proof.
  unfold extract.load_neos. split.
  - split.
    + intros Hall.
      assert (H : exists neos,
                 Forall2 (fun row neo =>
                            extract.neo_of_row float row = py.Ok neo)
                         csv_reader neos).
      { induction Hall as [| row rest Hrow _ [neos IH]].
        - exists []. constructor.
        - apply neo_of_row_total in Hrow. destruct Hrow as [neo Hneo].
          exists (neo :: neos). constructor; assumption. }
      destruct H as [neos H]. exists neos.
      apply load_neos_loop_spec. exists neos. split; [reflexivity | exact H].
    + intros [neos H]. apply load_neos_loop_spec in H.
      destruct H as [new [_ H]].
      induction H as [| row neo rest ns Hrow _ IH]; constructor.
      * apply neo_of_row_total. exists neo. exact Hrow.
      * exact IH.
  - intros neos H. apply load_neos_loop_spec in H.
    destruct H as [new [-> H]]. simpl.
    induction H as [| row neo rest ns Hrow _ IH]; constructor.
    + apply neo_of_row_loaded. exact Hrow.
    + exact IH.
Qed.

End LoadNeos.

(* ================================================================== *)
(** ** The writers *)
(* ================================================================== *)

Section WriterFacts.
Variable cd_to_datetime : string -> py.result py.datetime.
Variable datetime_to_str : py.datetime -> string.

Lemma serialized_neo_resolved result o :
  resolved result o ->
  write.serialized_neo result = py.Ok (NearEarthObject.serialize o).
Proof.
  unfold resolved, write.serialized_neo, write.neo_attr. intros ->.
  reflexivity.
Qed.

Lemma serialized_neo_unresolved result :
  CloseApproach.neo result = None ->
  write.serialized_neo result = py.Raise py.AttributeError.
Proof.
  unfold write.serialized_neo, write.neo_attr. intros ->. reflexivity.
Qed.

Lemma serialized_approach_resolved result o :
  resolved result o ->
  write.serialized_approach cd_to_datetime datetime_to_str result
  = py.Ok (CloseApproach.serialize datetime_to_str result).
Proof.
  unfold resolved, write.serialized_approach, write.neo_attr. intros ->.
  reflexivity.
Qed.

(** The JSON loop appends one entry per resolved result. *)
Lemma write_to_json_loop_resolved results objects acc :
  Forall2 resolved results objects ->
  write.write_to_json_loop cd_to_datetime datetime_to_str results acc
  = py.Ok (acc ++ map (fun '(r, o) => written_entry datetime_to_str r o)
                      (combine results objects)).
Proof.
  intros H. revert acc.
  induction H as [| r o rs os Hr _ IH]; intros acc; simpl.
  - rewrite app_nil_r. reflexivity.
  - rewrite (serialized_neo_resolved r o Hr).
    rewrite (serialized_approach_resolved r o Hr). cbn [py.bind].
    rewrite IH, <- app_assoc. reflexivity.
Qed.

(** Either loop stops with [AttributeError] at the first unresolved
    result. *)
Lemma write_to_json_loop_unresolved results :
  Exists (fun r => CloseApproach.neo r = None) results ->
  forall acc,
    write.write_to_json_loop cd_to_datetime datetime_to_str results acc
    = py.Raise py.AttributeError.
Proof.
  induction results as [| r rs IH]; intros Hex acc; [inversion Hex |].
  simpl. destruct (CloseApproach.neo r) as [o |] eqn:Hr.
  - rewrite (serialized_neo_resolved r o Hr).
    rewrite (serialized_approach_resolved r o Hr). cbn [py.bind].
    apply IH. inversion Hex as [x l Hx | x l Hx]; subst; [congruence | exact Hx].
  - rewrite (serialized_neo_unresolved r Hr). reflexivity.
Qed.

Lemma csv_row_resolved result o :
  resolved result o ->
  py.bind (write.serialized_neo result) (fun neo =>
  py.bind (write.serialized_approach cd_to_datetime datetime_to_str result)
    (fun approach =>
       csv.writerow write.fieldnames
         (py.dict_of_pairs
            (combine (py.keys approach ++ py.keys neo)
                     (py.values approach ++ py.values neo)))))
  = py.Ok (written_row datetime_to_str result o).
Proof.
  intros Hr.
  rewrite (serialized_neo_resolved result o Hr).
  rewrite (serialized_approach_resolved result o Hr).
  reflexivity.
Qed.

Lemma write_to_csv_loop_resolved results objects file :
  Forall2 resolved results objects ->
  write.write_to_csv_loop cd_to_datetime datetime_to_str results file
  = (file ++ map (fun '(r, o) => written_row datetime_to_str r o)
                 (combine results objects),
     py.Ok tt).
Proof.
  intros H. revert file.
  induction H as [| r o rs os Hr _ IH]; intros file;
    cbn [write.write_to_csv_loop].
  - rewrite app_nil_r. reflexivity.
  - rewrite (csv_row_resolved r o Hr). rewrite IH, <- app_assoc. reflexivity.
Qed.

Lemma write_to_csv_loop_unresolved results :
  Exists (fun r => CloseApproach.neo r = None) results ->
  forall file,
    snd (write.write_to_csv_loop cd_to_datetime datetime_to_str results file)
    = py.Raise py.AttributeError.
Proof.
  induction results as [| r rs IH]; intros Hex file; [inversion Hex |].
  cbn [write.write_to_csv_loop].
  destruct (CloseApproach.neo r) as [o |] eqn:Hr.
  - rewrite (csv_row_resolved r o Hr).
    apply IH. inversion Hex as [x l Hx | x l Hx]; subst; [congruence | exact Hx].
  - rewrite (serialized_neo_unresolved r Hr). reflexivity.
Qed.

Lemma resolved_objects results :
  Forall (fun r => CloseApproach.neo r <> None) results ->
  exists objects, Forall2 resolved results objects.
Proof.
  induction 1 as [| r rs Hr _ [os IH]].
  - exists []. constructor.
  - unfold resolved. destruct (CloseApproach.neo r) as [o |] eqn:Ho;
      [| now elim Hr].
    exists (o :: os). constructor; assumption.
Qed.

(** Dumping the entries cannot fail, and loading the document gives
    entries that reproduce the results. *)
Lemma dump_entries results objects :
  Forall2 resolved results objects ->
  exists docs,
    py.mapM json.dump
      (map (fun '(r, o) => written_entry datetime_to_str r o)
           (combine results objects))
    = py.Ok docs
    /\ Forall2 (reproduces datetime_to_str) results (map json.load docs).
Proof.
  induction 1 as [| r o rs os Hr _ [docs [IHd IHl]]].
  - exists []. split; [reflexivity | constructor].
  - cbn [combine map py.mapM]. rewrite IHd.
    destruct (NearEarthObject.name o) as [nm |] eqn:Hname.
    + eexists. split.
      * unfold written_entry, NearEarthObject.serialize. rewrite Hname.
        reflexivity.
      * cbn [map]. constructor; [| exact IHl].
        exists o. do 2 eexists. split; [exact Hr |].
        split; [reflexivity |]. rewrite Hname.
        repeat split.
    + eexists. split.
      * unfold written_entry, NearEarthObject.serialize. rewrite Hname.
        reflexivity.
      * cbn [map]. constructor; [| exact IHl].
        exists o. do 2 eexists. split; [exact Hr |].
        split; [reflexivity |]. rewrite Hname.
        repeat split.
Qed.

(** C8.  Both writers need every result to have a resolved object: if
    some result has [neo] unresolved, [write_to_csv] and
    [write_to_json] raise [AttributeError], at the first such result,
    while reading an attribute of [result.neo]; if every result is
    resolved, both complete. *)
Theorem writers_require_resolved_neo (results : list CloseApproach.t) :
  (Exists (fun r => CloseApproach.neo r = None) results ->
   snd (write.write_to_csv cd_to_datetime datetime_to_str results)
   = py.Raise py.AttributeError
   /\ write.write_to_json cd_to_datetime datetime_to_str results
      = py.Raise py.AttributeError)
  /\ (Forall (fun r => CloseApproach.neo r <> None) results ->
      snd (write.write_to_csv cd_to_datetime datetime_to_str results)
      = py.Ok tt
      /\ exists doc,
           write.write_to_json cd_to_datetime datetime_to_str results
           = py.Ok doc).
Proof.
  unfold write.write_to_csv, write.write_to_json. split.
  - intros Hex. split.
    + apply write_to_csv_loop_unresolved. exact Hex.
    + rewrite (write_to_json_loop_unresolved results Hex). reflexivity.
  - intros Hall. destruct (resolved_objects results Hall) as [objects Hres].
    split.
    + rewrite (write_to_csv_loop_resolved results objects _ Hres). reflexivity.
    + rewrite (write_to_json_loop_resolved results objects [] Hres).
      destruct (dump_entries results objects Hres) as [docs [Hd _]].
      exists (json.JArray docs). cbn [py.bind app json.dump]. rewrite Hd.
      reflexivity.
Qed.

(** C6.  When every result has a resolved object, [write_to_json]
    writes a document, and parsing that document gives a list with one
    entry per result, in order; the entry of a result holds the
    approach's time string, distance and velocity under [datetime_utc],
    [distance_au] and [velocity_km_s], and under [neo] an object with
    the designation, name ([None] for no name), diameter (NaN for NaN)
    and hazardous flag of the result's object. *)
Theorem write_to_json_round_trip (results : list CloseApproach.t) :
  Forall (fun r => CloseApproach.neo r <> None) results ->
  exists doc entries,
    write.write_to_json cd_to_datetime datetime_to_str results = py.Ok doc
    /\ json.load doc = py.List entries
    /\ Forall2 (reproduces datetime_to_str) results entries.
Proof.
  intros Hall. destruct (resolved_objects results Hall) as [objects Hres].
  destruct (dump_entries results objects Hres) as [docs [Hd Hl]].
  exists (json.JArray docs), (map json.load docs).
  split; [| split; [reflexivity | exact Hl]].
  unfold write.write_to_json.
  rewrite (write_to_json_loop_resolved results objects [] Hres).
  cbn [py.bind app json.dump]. rewrite Hd. reflexivity.
Qed.

End WriterFacts.

(* ================================================================== *)
(** ** The theorems at concrete inputs *)
(* ================================================================== *)

Lemma load_neos_fields_witness :
  let float := fun s : string =>
    if String.eqb s "0.5"
    then py.Ok (S754_finite false 4503599627370496 (-53))
    else py.Raise py.ValueError in
  let eros := [("pdes", "433"); ("name", "Eros"); ("diameter", "0.5");
               ("pha", "N")] in
  let unnamed := [("pdes", "2020 AB"); ("name", ""); ("diameter", "");
                  ("pha", "Y")] in
  Forall2 (loaded_from float) [eros; unnamed]
    [ NearEarthObject.init "433" (Some "Eros")
        (S754_finite false 4503599627370496 (-53)) false;
      NearEarthObject.init "2020 AB" None py.nan true ].
Proof.
  intros float eros unnamed.
  apply (proj2 (load_neos_fields float [eros; unnamed])).
  reflexivity.
Defined.

Lemma writers_require_resolved_neo_witness :
  let cd_to_datetime := fun _ : string => @py.Raise py.datetime py.ValueError in
  let datetime_to_str := fun _ : py.datetime => "2027-04-30 12:00" in
  let unresolved :=
    CloseApproach.mk "999" (py.mkdatetime (py.mkdate 2027 4 30) 12 0 0)
      (S754_zero false) (S754_zero false) None in
  snd (write.write_to_csv cd_to_datetime datetime_to_str [unresolved])
  = py.Raise py.AttributeError
  /\ write.write_to_json cd_to_datetime datetime_to_str [unresolved]
     = py.Raise py.AttributeError.
Proof.
  intros cd_to_datetime datetime_to_str unresolved.
  apply (proj1 (writers_require_resolved_neo cd_to_datetime datetime_to_str
                  [unresolved])).
  apply Exists_cons_hd. reflexivity.
Defined.

Lemma write_to_json_round_trip_witness :
  let cd_to_datetime := fun _ : string => @py.Raise py.datetime py.ValueError in
  let datetime_to_str := fun _ : py.datetime => "2027-04-30 12:00" in
  let eros := NearEarthObject.init "433" (Some "Eros") py.nan false in
  let approach :=
    CloseApproach.mk "433" (py.mkdatetime (py.mkdate 2027 4 30) 12 0 0)
      (S754_zero false) (S754_zero false) (Some eros) in
  exists doc entries,
    write.write_to_json cd_to_datetime datetime_to_str [approach] = py.Ok doc
    /\ json.load doc = py.List entries
    /\ Forall2 (reproduces datetime_to_str) [approach] entries.
Proof.
  intros cd_to_datetime datetime_to_str eros approach.
  apply (write_to_json_round_trip cd_to_datetime datetime_to_str [approach]).
  repeat constructor. simpl. discriminate.
Defined.

(* ================================================================== *)
(** ** The scenario of Eros *)
(* ================================================================== *)

Example not_hazardous_matches :
  fst (filters.create_filters py.VNone py.VNone py.VNone py.VNone py.VNone
         py.VNone py.VNone py.VNone py.VNone (py.VBool false) [])
  = py.Ok (Some [Some (filters.mk filters.HazardousFilter operator.eq
                         (py.VBool false))])
  /\ filters.call (filters.mk filters.HazardousFilter operator.eq
                     (py.VBool false)) scenario.approach
     = py.Ok true.
Proof. split; reflexivity. Qed.

Example hazardous_does_not_match :
  filters.call (filters.mk filters.HazardousFilter operator.eq (py.VBool true))
    scenario.approach
  = py.Ok false.
Proof. reflexivity. Qed.

Example date_bounds :
  filters.call (filters.mk filters.DateFilter operator.le
                  (py.VDate (py.mkdate 2027 4 30))) scenario.approach
  = py.Ok true
  /\ filters.call (filters.mk filters.DateFilter operator.ge
                     (py.VDate (py.mkdate 2027 5 1))) scenario.approach
     = py.Ok false.
Proof. split; reflexivity. Qed.

Example diameter_at_least_one :
  filters.call (filters.mk filters.DiameterFilter operator.ge
                  (py.VFloat (py.float_of_bool true))) scenario.approach
  = py.Ok true.
Proof. reflexivity. Qed.

Example limit_two_of_five :
  py.bind (filters.limit (itertools.generator [1; 2; 3; 4; 5]) (Some 2))
          (fun it => py.Ok (itertools.take 10 it))
  = py.Ok ([1; 2],
           itertools.islice_object (itertools.generator [3; 4; 5]) 2 (Some 2)).
Proof. reflexivity. Qed.

Example eros_fullname : NearEarthObject.fullname scenario.eros = "433(Eros)".
Proof. reflexivity. Qed.

(* ================================================================== *)
(** ** What the filters of [create_filters] accept *)
(* ================================================================== *)

Lemma SFcompare_antisym (x y : py.float) :
  SFcompare y x = option_map CompOpp (SFcompare x y).
Proof.
  destruct x as [sx | sx | | sx mx ex], y as [sy | sy | | sy my ey];
    try (destruct sx); try (destruct sy); try reflexivity; simpl;
    rewrite (Z.compare_antisym ex ey);
    destruct (ex ?= ey); simpl; try reflexivity;
    rewrite (Pos.compare_cont_antisym mx my Eq); reflexivity.
Qed.

Lemma SFcompare_nan_r (x : py.float) : SFcompare x py.nan = None.
Proof. destruct x; reflexivity. Qed.

Lemma date_compare_eq (a b : py.date) : py.date_compare a b = Eq <-> a = b.
Proof.
  destruct a as [ya ma da], b as [yb mb db]. unfold py.date_compare. simpl.
  split.
  - destruct (ya ?= yb) eqn:Hy; try discriminate.
    destruct (ma ?= mb) eqn:Hm; try discriminate. intros Hd.
    apply Z.compare_eq in Hy, Hm, Hd. subst. reflexivity.
  - intros H. injection H as -> -> ->. rewrite !Z.compare_refl. reflexivity.
Qed.

Lemma apply_ge_float (x lo : py.float) :
  operator.apply operator.ge (py.VFloat x) (py.VFloat lo) = py.Ok (SFleb lo x).
Proof.
  unfold operator.apply, py.compare, SFleb. simpl.
  rewrite (SFcompare_antisym x lo).
  destruct (SFcompare x lo) as [[ | | ] |]; reflexivity.
Qed.

Lemma apply_le_float (x hi : py.float) :
  operator.apply operator.le (py.VFloat x) (py.VFloat hi) = py.Ok (SFleb x hi).
Proof.
  unfold operator.apply, py.compare, SFleb. simpl.
  destruct (SFcompare x hi) as [[ | | ] |]; reflexivity.
Qed.

Lemma apply_eq_date (x d : py.date) :
  operator.apply operator.eq (py.VDate x) (py.VDate d) = py.Ok true <-> x = d.
Proof.
  unfold operator.apply, py.eqb. simpl. rewrite <- date_compare_eq.
  destruct (py.date_compare x d); split; intros H;
    try reflexivity; try discriminate.
Qed.

Lemma apply_ge_date (x s : py.date) :
  operator.apply operator.ge (py.VDate x) (py.VDate s) = py.Ok true
  <-> py.date_compare x s <> Lt.
Proof.
  unfold operator.apply. simpl.
  destruct (py.date_compare x s); split; intros H;
    try reflexivity; try discriminate; now elim H.
Qed.

Lemma apply_le_date (x e : py.date) :
  operator.apply operator.le (py.VDate x) (py.VDate e) = py.Ok true
  <-> py.date_compare x e <> Gt.
Proof.
  unfold operator.apply. simpl.
  destruct (py.date_compare x e); split; intros H;
    try reflexivity; try discriminate; now elim H.
Qed.

Lemma apply_eq_bool (x h : bool) :
  operator.apply operator.eq (py.VBool x) (py.VBool h) = py.Ok true <-> x = h.
Proof.
  destruct x, h; simpl; split; intros H;
    try reflexivity; try discriminate.
Qed.

Lemma Ok_true_iff (b : bool) : @py.Ok bool b = py.Ok true <-> b = true.
Proof.
  split; [intros H; injection H as ->; reflexivity | intros ->; reflexivity].
Qed.

(** X1.  With arguments of the types the command line supplies, at
    least one of them set, the filters [create_filters] returns all
    accept a resolved approach exactly when: its calendar date is
    [date]; it is not before [start_date] and not after [end_date]; its
    distance, its velocity and its object's diameter lie within the
    bounds given (in the order of IEEE 754, so a NaN on either side
    fails); and its object's hazardous flag is [hazardous].  An unset
    argument constrains nothing. *)
Theorem create_filters_accepts
    (date start_date end_date : option py.date)
    (distance_min distance_max velocity_min velocity_max
     diameter_min diameter_max : option py.float)
    (hazardous : option bool)
    (approach : CloseApproach.t) (neo : NearEarthObject.t)
    (log : list filters.instance) :
  let args := [typed.of_date date; typed.of_date start_date;
               typed.of_date end_date;
               typed.of_float distance_min; typed.of_float distance_max;
               typed.of_float velocity_min; typed.of_float velocity_max;
               typed.of_float diameter_min; typed.of_float diameter_max;
               typed.of_bool hazardous] in
  existsb py.is_not_None args = true ->
  CloseApproach.neo approach = Some neo ->
  exists returned : list filters.instance,
    fst (filters.create_filters (typed.of_date date) (typed.of_date start_date)
           (typed.of_date end_date)
           (typed.of_float distance_min) (typed.of_float distance_max)
           (typed.of_float velocity_min) (typed.of_float velocity_max)
           (typed.of_float diameter_min) (typed.of_float diameter_max)
           (typed.of_bool hazardous) log)
    = py.Ok (Some (map Some returned))
    /\ (Forall (fun f => filters.call f approach = py.Ok true) returned
        <-> (forall d, date = Some d ->
               py.dt_date (CloseApproach.time approach) = d)
            /\ (forall d, start_date = Some d ->
                  py.date_compare (py.dt_date (CloseApproach.time approach)) d
                  <> Lt)
            /\ (forall d, end_date = Some d ->
                  py.date_compare (py.dt_date (CloseApproach.time approach)) d
                  <> Gt)
            /\ (forall x, distance_min = Some x ->
                  SFleb x (CloseApproach.distance approach) = true)
            /\ (forall x, distance_max = Some x ->
                  SFleb (CloseApproach.distance approach) x = true)
            /\ (forall x, velocity_min = Some x ->
                  SFleb x (CloseApproach.velocity approach) = true)
            /\ (forall x, velocity_max = Some x ->
                  SFleb (CloseApproach.velocity approach) x = true)
            /\ (forall x, diameter_min = Some x ->
                  SFleb x (NearEarthObject.diameter neo) = true)
            /\ (forall x, diameter_max = Some x ->
                  SFleb (NearEarthObject.diameter neo) x = true)
            /\ (forall b, hazardous = Some b ->
                  NearEarthObject.hazardous neo = b)).
Proof.
  intros args Hset Hneo.
  exists (builder_spec.selected (combine builder_spec.criteria args)).
  split.
  { rewrite (create_filters_run _ _ _ _ _ _ _ _ _ _ log Hset). reflexivity. }
  rewrite Forall_forall. split.
  - intros H.
    assert (Hin : forall c o v,
               v <> py.VNone ->
               In ((c, o), v) (combine builder_spec.criteria args) ->
               filters.call (filters.mk c o v) approach = py.Ok true).
    { intros c o v Hv Hi. apply H. apply selected_In. split; assumption. }
    unfold filters.call, filters.get in Hin.
    cbn [filters.cls filters.op filters.value] in Hin. rewrite Hneo in Hin.
    repeat split.
    + intros d ->. apply apply_eq_date.
      apply (Hin filters.DateFilter operator.eq (py.VDate d));
        [discriminate | simpl; tauto].
    + intros d ->. apply apply_ge_date.
      apply (Hin filters.DateFilter operator.ge (py.VDate d));
        [discriminate | simpl; tauto].
    + intros d ->. apply apply_le_date.
      apply (Hin filters.DateFilter operator.le (py.VDate d));
        [discriminate | simpl; tauto].
    + intros x ->. apply Ok_true_iff. rewrite <- apply_ge_float.
      apply (Hin filters.DistanceFilter operator.ge (py.VFloat x));
        [discriminate | simpl; tauto].
    + intros x ->. apply Ok_true_iff. rewrite <- apply_le_float.
      apply (Hin filters.DistanceFilter operator.le (py.VFloat x));
        [discriminate | simpl; tauto].
    + intros x ->. apply Ok_true_iff. rewrite <- apply_ge_float.
      apply (Hin filters.VelocityFilter operator.ge (py.VFloat x));
        [discriminate | simpl; tauto].
    + intros x ->. apply Ok_true_iff. rewrite <- apply_le_float.
      apply (Hin filters.VelocityFilter operator.le (py.VFloat x));
        [discriminate | simpl; tauto].
    + intros x ->. apply Ok_true_iff. rewrite <- apply_ge_float.
      apply (Hin filters.DiameterFilter operator.ge (py.VFloat x));
        [discriminate | simpl; tauto].
    + intros x ->. apply Ok_true_iff. rewrite <- apply_le_float.
      apply (Hin filters.DiameterFilter operator.le (py.VFloat x));
        [discriminate | simpl; tauto].
    + intros b ->. apply apply_eq_bool.
      apply (Hin filters.HazardousFilter operator.eq (py.VBool b));
        [discriminate | simpl; tauto].
  - intros (H1 & H2 & H3 & H4 & H5 & H6 & H7 & H8 & H9 & H10) [c o v] Hin.
    apply selected_In in Hin. destruct Hin as [Hv Hin].
    unfold filters.call, filters.get.
    cbn [filters.cls filters.op filters.value].
    simpl in Hin.
    repeat (destruct Hin as [Hin | Hin]; [injection Hin as <- <- <- |]);
      try contradiction.
    + destruct date as [d |]; [| now elim Hv]. simpl.
      apply apply_eq_date. apply H1. reflexivity.
    + destruct start_date as [d |]; [| now elim Hv]. simpl.
      apply apply_ge_date. apply H2. reflexivity.
    + destruct end_date as [d |]; [| now elim Hv]. simpl.
      apply apply_le_date. apply H3. reflexivity.
    + destruct distance_min as [x |]; [| now elim Hv]. cbn [py.bind typed.of_float].
      rewrite apply_ge_float. apply Ok_true_iff. apply H4. reflexivity.
    + destruct distance_max as [x |]; [| now elim Hv]. cbn [py.bind typed.of_float].
      rewrite apply_le_float. apply Ok_true_iff. apply H5. reflexivity.
    + destruct velocity_min as [x |]; [| now elim Hv]. cbn [py.bind typed.of_float].
      rewrite apply_ge_float. apply Ok_true_iff. apply H6. reflexivity.
    + destruct velocity_max as [x |]; [| now elim Hv]. cbn [py.bind typed.of_float].
      rewrite apply_le_float. apply Ok_true_iff. apply H7. reflexivity.
    + destruct diameter_min as [x |]; [| now elim Hv]. rewrite Hneo.
      cbn [py.bind typed.of_float].
      rewrite apply_ge_float. apply Ok_true_iff. apply H8. reflexivity.
    + destruct diameter_max as [x |]; [| now elim Hv]. rewrite Hneo.
      cbn [py.bind typed.of_float].
      rewrite apply_le_float. apply Ok_true_iff. apply H9. reflexivity.
    + destruct hazardous as [b |]; [| now elim Hv]. rewrite Hneo.
      cbn [py.bind typed.of_bool].
      apply apply_eq_bool. apply H10. reflexivity.
Qed.

Lemma create_filters_accepts_witness :
  exists returned : list filters.instance,
    fst (filters.create_filters py.VNone
           (py.VDate (py.mkdate 2027 1 1)) py.VNone py.VNone
           (py.VFloat (py.float_of_bool true)) py.VNone py.VNone py.VNone
           py.VNone (py.VBool false) [])
    = py.Ok (Some (map Some returned))
    /\ Forall (fun f => filters.call f scenario.approach = py.Ok true) returned.
Proof.
  destruct (create_filters_accepts None (Some (py.mkdate 2027 1 1)) None
              None (Some (py.float_of_bool true)) None None None None
              (Some false) scenario.approach scenario.eros [] eq_refl eq_refl)
    as [returned [Hrun Hiff]].
  exists returned. split; [exact Hrun |].
  apply Hiff.
  repeat split; intros x Hx; try discriminate;
    injection Hx as <-; try reflexivity; discriminate.
Defined.

(** X2.  With arguments of the types the command line supplies, no
    returned filter raises on a resolved approach.  On an approach whose
    object is unresolved the date, distance and velocity filters still
    answer, while the diameter and hazardous filters raise
    [AttributeError]. *)
Theorem create_filters_calls_answer
    (date start_date end_date : option py.date)
    (distance_min distance_max velocity_min velocity_max
     diameter_min diameter_max : option py.float)
    (hazardous : option bool)
    (approach : CloseApproach.t) (log : list filters.instance) :
  let args := [typed.of_date date; typed.of_date start_date;
               typed.of_date end_date;
               typed.of_float distance_min; typed.of_float distance_max;
               typed.of_float velocity_min; typed.of_float velocity_max;
               typed.of_float diameter_min; typed.of_float diameter_max;
               typed.of_bool hazardous] in
  existsb py.is_not_None args = true ->
  exists returned : list filters.instance,
    fst (filters.create_filters (typed.of_date date) (typed.of_date start_date)
           (typed.of_date end_date)
           (typed.of_float distance_min) (typed.of_float distance_max)
           (typed.of_float velocity_min) (typed.of_float velocity_max)
           (typed.of_float diameter_min) (typed.of_float diameter_max)
           (typed.of_bool hazardous) log)
    = py.Ok (Some (map Some returned))
    /\ Forall (fun f =>
                 match CloseApproach.neo approach, filters.cls f with
                 | None, (filters.DiameterFilter | filters.HazardousFilter) =>
                     filters.call f approach = py.Raise py.AttributeError
                 | _, _ => exists b, filters.call f approach = py.Ok b
                 end) returned.
Proof.
  intros args Hset.
  exists (builder_spec.selected (combine builder_spec.criteria args)).
  split.
  { rewrite (create_filters_run _ _ _ _ _ _ _ _ _ _ log Hset). reflexivity. }
  apply Forall_forall. intros [c o v] Hin.
  apply selected_In in Hin. destruct Hin as [Hv Hin].
  unfold filters.call, filters.get.
  cbn [filters.cls filters.op filters.value].
  simpl in Hin.
  repeat (destruct Hin as [Hin | Hin]; [injection Hin as <- <- <- |]);
    try contradiction.
  - destruct date; [| now elim Hv].
    destruct (CloseApproach.neo approach); eexists; reflexivity.
  - destruct start_date; [| now elim Hv].
    destruct (CloseApproach.neo approach); eexists; reflexivity.
  - destruct end_date; [| now elim Hv].
    destruct (CloseApproach.neo approach); eexists; reflexivity.
  - destruct distance_min; [| now elim Hv].
    destruct (CloseApproach.neo approach); eexists; reflexivity.
  - destruct distance_max; [| now elim Hv].
    destruct (CloseApproach.neo approach); eexists; reflexivity.
  - destruct velocity_min; [| now elim Hv].
    destruct (CloseApproach.neo approach); eexists; reflexivity.
  - destruct velocity_max; [| now elim Hv].
    destruct (CloseApproach.neo approach); eexists; reflexivity.
  - destruct diameter_min; [| now elim Hv].
    destruct (CloseApproach.neo approach); [eexists |]; reflexivity.
  - destruct diameter_max; [| now elim Hv].
    destruct (CloseApproach.neo approach); [eexists |]; reflexivity.
  - destruct hazardous; [| now elim Hv].
    destruct (CloseApproach.neo approach); [eexists |]; reflexivity.
Qed.

Lemma create_filters_calls_answer_witness :
  let unresolved :=
    CloseApproach.mk "999" (py.mkdatetime (py.mkdate 2027 4 30) 12 0 0)
      (S754_zero false) (S754_zero false) None in
  exists returned : list filters.instance,
    fst (filters.create_filters py.VNone py.VNone py.VNone py.VNone py.VNone
           py.VNone py.VNone py.VNone py.VNone (py.VBool true) [])
    = py.Ok (Some (map Some returned))
    /\ Forall (fun f => filters.call f unresolved
                        = py.Raise py.AttributeError) returned.
Proof.
  intros unresolved.
  destruct (create_filters_calls_answer None None None None None None None
              None None (Some true) unresolved [] eq_refl)
    as [returned [Hrun Hall]].
  exists returned. split; [exact Hrun |].
  assert (Hret : returned
                 = [filters.mk filters.HazardousFilter operator.eq
                      (py.VBool true)]).
  { simpl in Hrun. injection Hrun as Hrun.
    destruct returned as [| f [| g r]]; try discriminate.
    injection Hrun as <-. reflexivity. }
  subst returned. repeat constructor.
Defined.

(** X3.  A bound that is NaN rejects everything: a distance, velocity
    or diameter filter whose reference value is NaN evaluates to false
    under [==], [<], [<=], [>] and [>=] on every resolved approach. *)
Theorem nan_reference_never_matches
    (c : filters.class) (o : operator.t)
    (approach : CloseApproach.t) (neo : NearEarthObject.t) :
  In c [filters.DistanceFilter; filters.VelocityFilter;
        filters.DiameterFilter] ->
  In o [operator.eq; operator.lt; operator.le; operator.gt; operator.ge] ->
  CloseApproach.neo approach = Some neo ->
  filters.call (filters.mk c o (py.VFloat py.nan)) approach = py.Ok false.
Proof.
  intros Hc Ho Hneo. unfold filters.call, filters.get.
  cbn [filters.cls filters.op filters.value]. rewrite Hneo.
  simpl in Hc, Ho.
  destruct Hc as [<- | [<- | [<- | []]]];
    destruct Ho as [<- | [<- | [<- | [<- | [<- | []]]]]];
    unfold operator.apply, py.eqb, py.compare, py.bind, py.numeric;
    rewrite SFcompare_nan_r; reflexivity.
Qed.

Lemma nan_reference_never_matches_witness :
  filters.call (filters.mk filters.DistanceFilter operator.ge
                  (py.VFloat py.nan)) scenario.approach
  = py.Ok false.
Proof.
  apply (nan_reference_never_matches filters.DistanceFilter operator.ge
           scenario.approach scenario.eros).
  - simpl. tauto.
  - simpl. tauto.
  - reflexivity.
Defined.

(** X4.  [operator.ne] is the one operator a NaN diameter satisfies: on
    an approach whose object has NaN diameter, a [DiameterFilter] built
    with [!=] evaluates to true, and does not raise, for every
    reference value that is [None], a boolean, a float (NaN itself
    included), a string or a date. *)
Theorem DiameterFilter_nan_ne_matches
    (reference : py.pyval)
    (approach : CloseApproach.t) (neo : NearEarthObject.t) :
  CloseApproach.neo approach = Some neo ->
  py.isnan (NearEarthObject.diameter neo) = true ->
  filters.call (filters.mk filters.DiameterFilter operator.ne reference)
    approach
  = py.Ok true.
Proof.
  intros Hneo Hnan. unfold filters.call, filters.get.
  cbn [filters.cls filters.op filters.value]. rewrite Hneo.
  rewrite (isnan_nan _ Hnan). cbn [py.bind operator.apply].
  rewrite eqb_nan. reflexivity.
Qed.

Lemma DiameterFilter_nan_ne_matches_witness :
  let neo := NearEarthObject.init "2020 AB" None py.nan false in
  let approach :=
    CloseApproach.mk "2020 AB" (py.mkdatetime (py.mkdate 2020 1 1) 0 0 0)
      (S754_zero false) (S754_zero false) (Some neo) in
  filters.call (filters.mk filters.DiameterFilter operator.ne
                  (py.VFloat py.nan)) approach
  = py.Ok true.
Proof.
  intros neo approach.
  apply (DiameterFilter_nan_ne_matches (py.VFloat py.nan) approach neo);
    reflexivity.
Defined.

(* ================================================================== *)
(** ** [AttributeFilter.__repr__] *)
(* ================================================================== *)

Lemma append_cancel_l (p s t : string) :
  (p ++ s)%string = (p ++ t)%string -> s = t.
Proof.
  induction p as [| a p IH]; simpl; intros H; [exact H |].
  injection H as H. apply IH. exact H.
Qed.






(* ================================================================== *)
(** ** [limit] composed with itself *)
(* ================================================================== *)

(** X6.  Limiting twice limits to the smaller bound: for
    [0 < m, n <= sys.maxsize], [limit(limit(seq, m), n)] yields the
    first [min m n] elements of [seq], and pulling it [k] times pulls
    [seq] as [min k (min m n)] pulls would. *)
Theorem limit_limit (T : Type) (seq : itertools.iterator T) (m n : Z) :
  0 < m -> m <= sys.maxsize -> 0 < n -> n <= sys.maxsize ->
  exists inner outer : itertools.iterator T,
    filters.limit seq (Some m) = py.Ok inner
    /\ filters.limit inner (Some n) = py.Ok outer
    /\ itertools.to_list outer
       = firstn (Z.to_nat (Z.min m n)) (itertools.to_list seq)
    /\ forall k : nat,
         itertools.pending (itertools.advance k outer)
         = itertools.pending
             (itertools.advance (Nat.min k (Z.to_nat (Z.min m n))) seq).
Proof.
  intros Hm Hmmax Hn Hnmax.
  exists (itertools.islice_object seq 0 (Some m)).
  exists (itertools.islice_object
            (itertools.islice_object seq 0 (Some m)) 0 (Some n)).
  split; [apply limit_within_bound; assumption |].
  split; [apply limit_within_bound; assumption |].
  split.
  - rewrite !to_list_contents. simpl. rewrite !Z.sub_0_r.
    rewrite firstn_firstn. f_equal. lia.
  - intros k. rewrite !advance_islice, !Z.sub_0_r. f_equal. f_equal. lia.
Qed.

Lemma limit_limit_witness :
  exists inner outer : itertools.iterator Z,
    filters.limit (itertools.generator [1; 2; 3; 4; 5]) (Some 4) = py.Ok inner
    /\ filters.limit inner (Some 2) = py.Ok outer
    /\ itertools.to_list outer = [1; 2].
Proof.
  assert (H4 : 4 <= sys.maxsize) by (vm_compute; discriminate).
  assert (H2 : 2 <= sys.maxsize) by (vm_compute; discriminate).
  destruct (limit_limit Z (itertools.generator [1; 2; 3; 4; 5]) 4 2
              eq_refl H4 eq_refl H2)
    as [inner [outer [Hi [Ho [Hl _]]]]].
  exists inner, outer. split; [exact Hi |]. split; [exact Ho | exact Hl].
Defined.

(* ================================================================== *)
(** ** More of models.py *)
(* ================================================================== *)

Lemma append_empty_r (s : string) : (s ++ "")%string = s.
Proof.
  induction s as [| a s IH]; simpl; [reflexivity | rewrite IH; reflexivity].
Qed.

(** X7.  The full name of an object is its designation alone when the
    object has no name ([None] or the empty string), and otherwise the
    designation followed by the name in parentheses; it is the bare
    designation only in the first case. *)
Theorem fullname_designation (self : NearEarthObject.t) :
  (forall n, NearEarthObject.name self = Some n -> n <> "" ->
     NearEarthObject.fullname self
     = (NearEarthObject.designation self ++ "(" ++ n ++ ")")%string)
  /\ (NearEarthObject.fullname self = NearEarthObject.designation self
      <-> NearEarthObject.name self = None
          \/ NearEarthObject.name self = Some "").
Proof.
  unfold NearEarthObject.fullname. split.
  - intros n -> Hn. apply length_pos_true in Hn. rewrite Hn. reflexivity.
  - destruct (NearEarthObject.name self) as [n |].
    + destruct n as [| a n].
      * simpl. rewrite append_empty_r. split; auto.
      * cbn [String.length Nat.ltb Nat.leb]. split.
        -- intros H.
           rewrite <- (append_empty_r (NearEarthObject.designation self)) in H
             at 2.
           apply append_cancel_l in H. discriminate.
        -- intros [H | H]; discriminate.
    + rewrite append_empty_r. split; auto.
Qed.

Lemma fullname_designation_witness :
  NearEarthObject.fullname scenario.eros = "433(Eros)".
Proof.
  apply (proj1 (fullname_designation scenario.eros) "Eros").
  - reflexivity.
  - discriminate.
Defined.

(** X8.  Approaches added to an object are kept in the order they were
    added, after those already there; adding approaches changes no other
    attribute, and so not what the object serializes to. *)
Theorem add_approach_appends (self : NearEarthObject.t) (added : list nat) :
  let after := fold_left NearEarthObject.add_approach added self in
  NearEarthObject.approaches after = NearEarthObject.approaches self ++ added
  /\ NearEarthObject.designation after = NearEarthObject.designation self
  /\ NearEarthObject.name after = NearEarthObject.name self
  /\ NearEarthObject.diameter after = NearEarthObject.diameter self
  /\ NearEarthObject.hazardous after = NearEarthObject.hazardous self
  /\ NearEarthObject.serialize after = NearEarthObject.serialize self
  /\ NearEarthObject.fullname after = NearEarthObject.fullname self.
Proof.
  revert self. induction added as [| a l IH]; intros self; simpl.
  - rewrite app_nil_r. repeat split.
  - destruct (IH (NearEarthObject.add_approach self a))
      as (H1 & H2 & H3 & H4 & H5 & H6 & H7).
    rewrite H1, H2, H3, H4, H5, H6, H7. simpl. rewrite <- app_assoc.
    repeat split.
Qed.

(** X9.  After any sequence of [set_neo] calls the approach refers to
    the last object that was passed: calls with [None] in between or
    afterwards change nothing, and a sequence of [None] calls only
    leaves the approach as it was. *)
Theorem set_neo_last_wins (self : CloseApproach.t)
    (before after : list (option NearEarthObject.t)) (neo : NearEarthObject.t) :
  Forall (fun x => x = None) after ->
  CloseApproach.neo
    (fold_left CloseApproach.set_neo (before ++ Some neo :: after) self)
  = Some neo
  /\ fold_left CloseApproach.set_neo after self = self.
Proof.
  intros Hafter.
  assert (Hnone : forall a : CloseApproach.t,
             fold_left CloseApproach.set_neo after a = a).
  { induction Hafter as [| x l -> _ IH]; intros a; simpl;
      [reflexivity | apply IH]. }
  split; [| apply Hnone].
  rewrite fold_left_app. simpl. rewrite Hnone. reflexivity.
Qed.

Lemma set_neo_last_wins_witness :
  CloseApproach.neo
    (fold_left CloseApproach.set_neo
       [None; Some (NearEarthObject.init "1" None py.nan true);
        Some scenario.eros; None]
       scenario.approach)
  = Some scenario.eros.
Proof.
  apply (proj1 (set_neo_last_wins scenario.approach
                  [None; Some (NearEarthObject.init "1" None py.nan true)]
                  [None] scenario.eros
                  (Forall_cons None eq_refl (Forall_nil _)))).
Defined.

(* ================================================================== *)
(** ** More of write.py *)
(* ================================================================== *)

Section WriterMore.
Variable cd_to_datetime : string -> py.result py.datetime.
Variable datetime_to_str : py.datetime -> string.

Lemma write_to_csv_loop_app pre objects rest file :
  Forall2 resolved pre objects ->
  write.write_to_csv_loop cd_to_datetime datetime_to_str (pre ++ rest) file
  = write.write_to_csv_loop cd_to_datetime datetime_to_str rest
      (file ++ map (fun '(r, o) => written_row datetime_to_str r o)
                   (combine pre objects)).
Proof.
  intros H. revert file.
  induction H as [| r o rs os Hr _ IH]; intros file.
  - simpl. rewrite app_nil_r. reflexivity.
  - cbn [app write.write_to_csv_loop].
    rewrite (csv_row_resolved cd_to_datetime datetime_to_str r o Hr).
    rewrite IH. cbn [combine map]. rewrite <- app_assoc. reflexivity.
Qed.

(** X10.  [write_to_csv] writes as it goes: when the first unresolved
    result comes after some resolved ones, the file holds the header
    and the rows of those, exactly what writing them alone produces,
    and the call ends in [AttributeError]; nothing of the results after
    it is written. *)
Theorem write_to_csv_stops_at_unresolved
    (pre post : list CloseApproach.t) (bad : CloseApproach.t) :
  Forall (fun r => CloseApproach.neo r <> None) pre ->
  CloseApproach.neo bad = None ->
  write.write_to_csv cd_to_datetime datetime_to_str (pre ++ bad :: post)
  = (fst (write.write_to_csv cd_to_datetime datetime_to_str pre),
     py.Raise py.AttributeError)
  /\ List.length (fst (write.write_to_csv cd_to_datetime datetime_to_str pre))
     = S (List.length pre).
Proof.
  intros Hpre Hbad.
  destruct (resolved_objects pre Hpre) as [objects Hres].
  unfold write.write_to_csv.
  rewrite (write_to_csv_loop_app pre objects _ _ Hres).
  rewrite (write_to_csv_loop_resolved cd_to_datetime datetime_to_str
             pre objects _ Hres).
  cbn [fst write.write_to_csv_loop].
  rewrite (serialized_neo_unresolved bad Hbad). cbn [py.bind].
  split; [reflexivity |].
  rewrite length_app, length_map, length_combine.
  rewrite <- (Forall2_length Hres), Nat.min_id. simpl. lia.
Qed.


Lemma written_alike_body (cd_to_datetime' : string -> py.result py.datetime)
    (r r' : CloseApproach.t) :
  CloseApproach.time r = CloseApproach.time r' ->
  CloseApproach.distance r = CloseApproach.distance r' ->
  CloseApproach.velocity r = CloseApproach.velocity r' ->
  option_map NearEarthObject.serialize (CloseApproach.neo r)
  = option_map NearEarthObject.serialize (CloseApproach.neo r') ->
  write.serialized_neo r = write.serialized_neo r'
  /\ write.serialized_approach cd_to_datetime datetime_to_str r
     = write.serialized_approach cd_to_datetime' datetime_to_str r'.
Proof.
  intros Ht Hd Hv Hn.
  unfold write.serialized_neo, write.serialized_approach, write.neo_attr,
    CloseApproach.init, CloseApproach.serialize.
  destruct (CloseApproach.neo r) as [o |], (CloseApproach.neo r') as [o' |];
    simpl in Hn; try discriminate; cbn [py.bind].
  - cbn [CloseApproach.time CloseApproach.distance CloseApproach.velocity].
    rewrite Ht, Hd, Hv. split; [| reflexivity].
    injection Hn as H1 H2 H3 H4. unfold NearEarthObject.serialize.
    cbn [NearEarthObject.init NearEarthObject.designation NearEarthObject.name
         NearEarthObject.diameter NearEarthObject.hazardous].
    rewrite H1, H2, H3, H4. reflexivity.
  - split; reflexivity.
Qed.

(** X12.  The writers read only the time, distance and velocity of a
    result and the designation, name, diameter and hazardous flag of
    its object: two result lists that agree on these are written alike
    by both writers, whatever the approaches' own designations, the
    objects' approach collections, and the date parser are. *)
Theorem writers_read_only_serialized_fields
    (cd_to_datetime' : string -> py.result py.datetime)
    (results results' : list CloseApproach.t) :
  Forall2 (fun r r' =>
             CloseApproach.time r = CloseApproach.time r'
             /\ CloseApproach.distance r = CloseApproach.distance r'
             /\ CloseApproach.velocity r = CloseApproach.velocity r'
             /\ option_map NearEarthObject.serialize (CloseApproach.neo r)
                = option_map NearEarthObject.serialize (CloseApproach.neo r'))
          results results' ->
  write.write_to_json cd_to_datetime datetime_to_str results
  = write.write_to_json cd_to_datetime' datetime_to_str results'
  /\ write.write_to_csv cd_to_datetime datetime_to_str results
     = write.write_to_csv cd_to_datetime' datetime_to_str results'.
Proof.
  intros H. unfold write.write_to_json, write.write_to_csv.
  assert (Hj : forall acc,
             write.write_to_json_loop cd_to_datetime datetime_to_str
               results acc
             = write.write_to_json_loop cd_to_datetime' datetime_to_str
                 results' acc).
  { induction H as [| r r' rs rs' (Ht & Hd & Hv & Hn) _ IH]; intros acc;
      [reflexivity |].
    cbn [write.write_to_json_loop].
    destruct (written_alike_body cd_to_datetime' r r' Ht Hd Hv Hn)
      as [-> ->].
    destruct (write.serialized_neo r'); [| reflexivity]. cbn [py.bind].
    destruct (write.serialized_approach cd_to_datetime' datetime_to_str r');
      [| reflexivity].
    cbn [py.bind]. apply IH. }
  assert (Hc : forall file,
             write.write_to_csv_loop cd_to_datetime datetime_to_str
               results file
             = write.write_to_csv_loop cd_to_datetime' datetime_to_str
                 results' file).
  { clear Hj.
    induction H as [| r r' rs rs' (Ht & Hd & Hv & Hn) _ IH]; intros file;
      [reflexivity |].
    cbn [write.write_to_csv_loop].
    destruct (written_alike_body cd_to_datetime' r r' Ht Hd Hv Hn)
      as [-> ->].
    match goal with
    | |- match ?b with _ => _ end = _ => destruct b; [apply IH | reflexivity]
    end. }
  rewrite Hj, Hc. split; reflexivity.
Qed.

End WriterMore.

Lemma write_to_csv_stops_at_unresolved_witness :
  let cd_to_datetime := fun _ : string => @py.Raise py.datetime py.ValueError in
  let datetime_to_str := fun _ : py.datetime => "2027-04-30 12:00" in
  let unresolved :=
    CloseApproach.mk "999" (py.mkdatetime (py.mkdate 2027 4 30) 12 0 0)
      (S754_zero false) (S754_zero false) None in
  let results := [scenario.approach; unresolved; scenario.approach] in
  snd (write.write_to_csv cd_to_datetime datetime_to_str results)
  = py.Raise py.AttributeError
  /\ List.length (fst (write.write_to_csv cd_to_datetime datetime_to_str results))
     = 2%nat.
Proof.
  intros cd_to_datetime datetime_to_str unresolved results.
  assert (Hpre : Forall (fun r => CloseApproach.neo r <> None)
                   [scenario.approach]).
  { repeat constructor. simpl. discriminate. }
  destruct (write_to_csv_stops_at_unresolved cd_to_datetime datetime_to_str
              [scenario.approach] [scenario.approach] unresolved
              Hpre eq_refl) as [Hrun Hlen].
  unfold results. change [scenario.approach; unresolved; scenario.approach]
    with ([scenario.approach] ++ unresolved :: [scenario.approach]).
  rewrite Hrun. split; [reflexivity | exact Hlen].
Defined.


Lemma writers_read_only_serialized_fields_witness :
  let cd_to_datetime := fun _ : string => @py.Raise py.datetime py.ValueError in
  let cd_to_datetime' :=
    fun _ : string => py.Ok (py.mkdatetime (py.mkdate 1900 1 1) 0 0 0) in
  let datetime_to_str := fun _ : py.datetime => "2027-04-30 12:00" in
  let other :=
    CloseApproach.mk "another designation"
      (CloseApproach.time scenario.approach)
      (CloseApproach.distance scenario.approach)
      (CloseApproach.velocity scenario.approach)
      (Some (NearEarthObject.add_approach scenario.eros 7)) in
  write.write_to_json cd_to_datetime datetime_to_str [scenario.approach]
  = write.write_to_json cd_to_datetime' datetime_to_str [other].
Proof.
  intros cd_to_datetime cd_to_datetime' datetime_to_str other.
  apply (writers_read_only_serialized_fields cd_to_datetime datetime_to_str
           cd_to_datetime' [scenario.approach] [other]).
  repeat constructor.
Defined.

(* ================================================================== *)
(** ** More of extract.py *)
(* ================================================================== *)

Section LoadNeosMore.
Variable float : string -> py.result py.float.

Lemma load_neos_loop_app (pre rest : list (py.dict string))
    (acc : list NearEarthObject.t) :
  extract.load_neos_loop float (pre ++ rest) acc
  = py.bind (extract.load_neos_loop float pre acc)
            (fun neos => extract.load_neos_loop float rest neos).
Proof.
  revert acc. induction pre as [| row rows IH]; intros acc; [reflexivity |].
  cbn [app extract.load_neos_loop].
  destruct (extract.neo_of_row float row); cbn [py.bind];
    [apply IH | reflexivity].
Qed.

(** X13.  [load_neos] gives up at the first row it cannot load: it
    raises what that row raises and returns none of the objects loaded
    before it, whatever the rows after it are. *)
Theorem load_neos_stops_at_first_error
    (pre post : list (py.dict string)) (bad : py.dict string) (e : py.exn) :
  (exists neos, extract.load_neos float pre = py.Ok neos) ->
  extract.neo_of_row float bad = py.Raise e ->
  extract.load_neos float (pre ++ bad :: post) = py.Raise e.
Proof.
  unfold extract.load_neos. intros [neos Hpre] Hbad.
  rewrite load_neos_loop_app, Hpre. cbn [py.bind extract.load_neos_loop].
  rewrite Hbad. reflexivity.
Qed.

(** X14.  What a row raises: [KeyError] when the [pdes], [name] or
    [diameter] column is missing; the error of [float] when those three
    are there and the diameter is not empty and not a number; and
    [KeyError] when only the [pha] column is missing. *)
Theorem neo_of_row_raises (row : py.dict string) :
  (py.dict_get row "pdes" = None \/ py.dict_get row "name" = None
   \/ py.dict_get row "diameter" = None ->
   extract.neo_of_row float row = py.Raise py.KeyError)
  /\ (forall pdes name diameter e,
        py.dict_get row "pdes" = Some pdes ->
        py.dict_get row "name" = Some name ->
        py.dict_get row "diameter" = Some diameter ->
        diameter <> "" ->
        float diameter = py.Raise e ->
        extract.neo_of_row float row = py.Raise e)
  /\ (forall pdes name diameter,
        py.dict_get row "pdes" = Some pdes ->
        py.dict_get row "name" = Some name ->
        py.dict_get row "diameter" = Some diameter ->
        (diameter <> "" -> exists d, float diameter = py.Ok d) ->
        py.dict_get row "pha" = None ->
        extract.neo_of_row float row = py.Raise py.KeyError).
Proof.
  unfold extract.neo_of_row, py.getitem. repeat split.
  - intros [H | [H | H]].
    + rewrite H. reflexivity.
    + destruct (py.dict_get row "pdes"); [| reflexivity].
      rewrite H. reflexivity.
    + destruct (py.dict_get row "pdes"); [| reflexivity].
      destruct (py.dict_get row "name"); [| reflexivity].
      rewrite H. reflexivity.
  - intros pdes name diameter e -> -> -> Hne He. cbn [py.bind].
    apply length_pos_true in Hne. rewrite Hne, He. reflexivity.
  - intros pdes name diameter -> -> -> Hd ->. cbn [py.bind].
    destruct (0 <? String.length diameter)%nat eqn:Hlen.
    + apply length_pos_true in Hlen. destruct (Hd Hlen) as [d ->].
      reflexivity.
    + reflexivity.
Qed.

End LoadNeosMore.

Lemma load_neos_stops_at_first_error_witness :
  let float := fun s : string =>
    if String.eqb s "0.5"
    then py.Ok (S754_finite false 4503599627370496 (-53))
    else py.Raise py.ValueError in
  let eros := [("pdes", "433"); ("name", "Eros"); ("diameter", "0.5");
               ("pha", "N")] in
  let bad := [("pdes", "2020 AB"); ("name", ""); ("diameter", "big");
              ("pha", "Y")] in
  extract.load_neos float ([eros] ++ bad :: [eros]) = py.Raise py.ValueError.
Proof.
  intros float eros bad.
  apply (load_neos_stops_at_first_error float [eros] [eros] bad py.ValueError).
  - eexists. reflexivity.
  - reflexivity.
Defined.

Lemma neo_of_row_raises_witness :
  let float := fun _ : string => @py.Raise py.float py.ValueError in
  extract.neo_of_row float [("pdes", "433"); ("diameter", "0.5"); ("pha", "N")]
  = py.Raise py.KeyError.
Proof.
  intros float.
  apply (proj1 (neo_of_row_raises float
                  [("pdes", "433"); ("diameter", "0.5"); ("pha", "N")])).
  right. left. reflexivity.
Defined.

Section LoadApproaches.
Variable float : string -> py.result py.float.
Variable cd_to_datetime : string -> py.result py.datetime.

Lemma load_approaches_loop_app (pre rest : list (list string))
    (acc : list CloseApproach.t) :
  extract_approaches.load_approaches_loop float cd_to_datetime (pre ++ rest) acc
  = extract_approaches.bind
      (extract_approaches.load_approaches_loop float cd_to_datetime pre acc)
      (fun approaches =>
         extract_approaches.load_approaches_loop float cd_to_datetime rest
           approaches).
Proof.
  revert acc. induction pre as [| row rows IH]; intros acc; [reflexivity |].
  cbn [app extract_approaches.load_approaches_loop].
  destruct (extract_approaches.approach_of_content float cd_to_datetime row);
    cbn [extract_approaches.bind]; [reflexivity | apply IH].
Qed.

Lemma load_approaches_loop_spec (rows : list (list string))
    (acc approaches : list CloseApproach.t) :
  extract_approaches.load_approaches_loop float cd_to_datetime rows acc
  = inr approaches
  <-> exists new,
        approaches = acc ++ new
        /\ Forall2 (fun content a =>
                      extract_approaches.approach_of_content float
                        cd_to_datetime content = inr a)
                   rows new.
Proof.
  revert acc. induction rows as [| row rest IH]; intros acc; simpl.
  - split.
    + intros H. injection H as <-. exists []. rewrite app_nil_r.
      split; [reflexivity | constructor].
    + intros [new [-> H]]. inversion H. rewrite app_nil_r. reflexivity.
  - destruct (extract_approaches.approach_of_content float cd_to_datetime row)
      as [e | a] eqn:Hrow; cbn [extract_approaches.bind].
    + split; [discriminate |].
      intros [new [_ H]]. inversion H as [| r n rs ns Hn Hrest]; subst.
      rewrite Hrow in Hn. discriminate.
    + rewrite IH. split.
      * intros [new [-> H]]. exists (a :: new). rewrite <- app_assoc.
        split; [reflexivity | constructor; assumption].
      * intros [new [-> H]]. inversion H as [| r n rs ns Hn Hrest]; subst.
        rewrite Hrow in Hn. injection Hn as <-.
        exists ns. rewrite <- app_assoc. split; [reflexivity | exact Hrest].
Qed.

Lemma approach_of_content_fields (content : list string) (a : CloseApproach.t) :
  extract_approaches.approach_of_content float cd_to_datetime content = inr a ->
  nth_error content 0 = Some (CloseApproach._designation a)
  /\ (exists t, nth_error content 3 = Some t
                /\ cd_to_datetime t = py.Ok (CloseApproach.time a))
  /\ (exists c, nth_error content 4 = Some c
                /\ (c = "" -> float "0" = py.Ok (CloseApproach.distance a))
                /\ (c <> "" -> float c = py.Ok (CloseApproach.distance a)))
  /\ (exists c, nth_error content 7 = Some c
                /\ (c = "" -> float "0" = py.Ok (CloseApproach.velocity a))
                /\ (c <> "" -> float c = py.Ok (CloseApproach.velocity a)))
  /\ CloseApproach.neo a = None.
Proof.
  unfold extract_approaches.approach_of_content, extract_approaches.item.
  destruct (nth_error content 0) as [d |]; [| discriminate].
  destruct (nth_error content 3) as [t |]; [| discriminate].
  destruct (nth_error content 4) as [c4 |]; [| discriminate].
  cbn [extract_approaches.bind].
  destruct (float (if (0 <? String.length c4)%nat then c4 else "0"))
    as [x |] eqn:Hx; [| discriminate].
  cbn [extract_approaches.lift extract_approaches.bind].
  destruct (nth_error content 7) as [c7 |]; [| discriminate].
  cbn [extract_approaches.bind].
  destruct (float (if (0 <? String.length c7)%nat then c7 else "0"))
    as [y |] eqn:Hy; [| discriminate].
  cbn [extract_approaches.lift extract_approaches.bind].
  unfold CloseApproach.init.
  destruct (cd_to_datetime t) as [dt |] eqn:Ht; [| discriminate].
  cbn [py.bind extract_approaches.lift]. intros H. injection H as <-.
  cbn [CloseApproach._designation CloseApproach.time CloseApproach.distance
       CloseApproach.velocity CloseApproach.neo].
  split; [reflexivity |].
  split; [exists t; split; [reflexivity | exact Ht] |].
  split.
  { exists c4. split; [reflexivity |]. split.
    - intros ->. exact Hx.
    - intros Hne. apply length_pos_true in Hne. rewrite Hne in Hx. exact Hx. }
  split; [| reflexivity].
  exists c7. split; [reflexivity |]. split.
  - intros ->. exact Hy.
  - intros Hne. apply length_pos_true in Hne. rewrite Hne in Hy. exact Hy.
Qed.

(** X15.  Every close approach [load_approaches] returns comes from the
    row at its position in the [data] array: its designation is field 0,
    its time field 3 parsed as a calendar date, its distance and its
    velocity fields 4 and 7 read as floats, an empty field being read
    as the text [0]; and its object is unresolved. *)
Theorem load_approaches_fields (data : py.dict (list (list string)))
    (approaches : list CloseApproach.t) :
  extract_approaches.load_approaches float cd_to_datetime data = inr approaches ->
  exists content_list,
    py.dict_get data "data" = Some content_list
    /\ Forall2
         (fun content a =>
            nth_error content 0 = Some (CloseApproach._designation a)
            /\ (exists t, nth_error content 3 = Some t
                          /\ cd_to_datetime t = py.Ok (CloseApproach.time a))
            /\ (exists c, nth_error content 4 = Some c
                          /\ (c = "" ->
                              float "0" = py.Ok (CloseApproach.distance a))
                          /\ (c <> "" ->
                              float c = py.Ok (CloseApproach.distance a)))
            /\ (exists c, nth_error content 7 = Some c
                          /\ (c = "" ->
                              float "0" = py.Ok (CloseApproach.velocity a))
                          /\ (c <> "" ->
                              float c = py.Ok (CloseApproach.velocity a)))
            /\ CloseApproach.neo a = None)
         content_list approaches.
Proof.
  unfold extract_approaches.load_approaches, py.getitem.
  destruct (py.dict_get data "data") as [content_list |]; [| discriminate].
  cbn [extract_approaches.lift extract_approaches.bind]. intros H.
  exists content_list. split; [reflexivity |].
  apply load_approaches_loop_spec in H. destruct H as [new [-> H]]. simpl.
  induction H as [| content a rest ns Hrow _ IH]; constructor.
  - apply approach_of_content_fields. exact Hrow.
  - exact IH.
Qed.

(** X16.  [load_approaches] raises [KeyError] when the document has no
    [data] member, and gives up at the first row it cannot load, with
    what that row raises: [IndexError] for a row of fewer than eight
    fields, unless reading its distance field as a float fails first. *)
Theorem load_approaches_raises (data : py.dict (list (list string))) :
  (py.dict_get data "data" = None ->
   extract_approaches.load_approaches float cd_to_datetime data
   = inl (extract_approaches.Other py.KeyError))
  /\ (forall pre bad post e,
        py.dict_get data "data" = Some (pre ++ bad :: post) ->
        (exists loaded,
            extract_approaches.load_approaches_loop float cd_to_datetime pre []
            = inr loaded) ->
        extract_approaches.approach_of_content float cd_to_datetime bad = inl e ->
        extract_approaches.load_approaches float cd_to_datetime data = inl e)
  /\ (forall bad,
        (List.length bad < 8)%nat ->
        (forall c, nth_error bad 4 = Some c ->
                   exists x, float (if (0 <? String.length c)%nat then c
                                    else "0") = py.Ok x) ->
        extract_approaches.approach_of_content float cd_to_datetime bad
        = inl extract_approaches.IndexError).
Proof.
  split; [| split].
  - unfold extract_approaches.load_approaches, py.getitem. intros ->.
    reflexivity.
  - intros pre bad post e Hdata [loaded Hpre] Hbad.
    unfold extract_approaches.load_approaches, py.getitem. rewrite Hdata.
    cbn [extract_approaches.lift extract_approaches.bind].
    rewrite load_approaches_loop_app, Hpre.
    cbn [extract_approaches.bind extract_approaches.load_approaches_loop].
    rewrite Hbad. reflexivity.
  - intros bad Hlen Hfloat.
    unfold extract_approaches.approach_of_content, extract_approaches.item.
    destruct (nth_error bad 0); [| reflexivity].
    destruct (nth_error bad 3); [| reflexivity].
    destruct (nth_error bad 4) as [c |]; [| reflexivity].
    cbn [extract_approaches.bind].
    destruct (Hfloat c eq_refl) as [x ->].
    cbn [extract_approaches.lift extract_approaches.bind].
    assert (H7 : nth_error bad 7 = None) by (apply nth_error_None; lia).
    rewrite H7. reflexivity.
Qed.

End LoadApproaches.

Lemma load_approaches_fields_witness :
  let float := fun s : string =>
    if String.eqb s "0" then py.Ok (S754_zero false)
    else py.Raise py.ValueError in
  let cd_to_datetime := fun _ : string =>
    py.Ok (py.mkdatetime (py.mkdate 2027 4 30) 12 0 0) in
  let row := ["433"; "1"; "2461526.0"; "2027-Apr-30 12:00"; "";
              "0"; "0"; "0"] in
  exists a,
    extract_approaches.load_approaches float cd_to_datetime [("data", [row])]
    = inr [a]
    /\ CloseApproach.neo a = None
    /\ CloseApproach._designation a = "433".
Proof.
  intros float cd_to_datetime row.
  set (a := CloseApproach.mk "433" (py.mkdatetime (py.mkdate 2027 4 30) 12 0 0)
              (S754_zero false) (S754_zero false) None).
  assert (Hload : extract_approaches.load_approaches float cd_to_datetime
                    [("data", [row])] = inr [a]) by reflexivity.
  destruct (load_approaches_fields float cd_to_datetime _ _ Hload)
    as [content_list [_ Hall]].
  exists a. split; [exact Hload |].
  inversion Hall as [| content x rest xs Hrow _]; subst.
  destruct Hrow as (_ & _ & _ & _ & Hneo).
  split; [exact Hneo | reflexivity].
Defined.

Lemma load_approaches_raises_witness :
  let float := fun _ : string => py.Ok (S754_zero false) in
  let cd_to_datetime := fun _ : string =>
    py.Ok (py.mkdatetime (py.mkdate 2027 4 30) 12 0 0) in
  extract_approaches.approach_of_content float cd_to_datetime
    ["433"; "1"; "2461526.0"; "2027-Apr-30 12:00"; "0.15"]
  = inl extract_approaches.IndexError.
Proof.
  intros float cd_to_datetime.
  apply (proj2 (proj2 (load_approaches_raises float cd_to_datetime []))).
  - simpl. lia.
  - intros c _. eexists. reflexivity.
Defined.

(* ================================================================== *)
(** ** The classes of the filters [create_filters] returns *)
(* ================================================================== *)

Lemma compare_raises_TypeError (a b : py.pyval) (e : py.exn) :
  py.compare a b = py.Raise e -> e = py.TypeError.
Proof.
  destruct a, b; simpl; intros H; try discriminate;
    injection H as <-; reflexivity.
Qed.

Lemma apply_never_unsupported (o : operator.t) (a b : py.pyval) :
  operator.apply o a b <> py.Raise py.UnsupportedCriterionError.
Proof.
  destruct o; simpl; try discriminate;
    destruct (py.compare a b) as [c | e] eqn:Hc; simpl; try discriminate;
    apply compare_raises_TypeError in Hc; subst e; discriminate.
Qed.

(** X17.  Whatever the arguments are, [create_filters] never returns an
    instance of the base class, so invoking a filter it returned never
    raises the unsupported criterion error. *)
Theorem create_filters_never_base
    (date start_date end_date distance_min distance_max
     velocity_min velocity_max diameter_min diameter_max hazardous : py.pyval)
    (log : list filters.instance) (returned : list (option filters.instance)) :
  fst (filters.create_filters date start_date end_date distance_min
         distance_max velocity_min velocity_max diameter_min diameter_max
         hazardous log)
  = py.Ok (Some returned) ->
  forall f approach,
    In (Some f) returned ->
    filters.cls f <> filters.AttributeFilter
    /\ filters.call f approach <> py.Raise py.UnsupportedCriterionError.
Proof.
  set (args := [date; start_date; end_date; distance_min; distance_max;
                velocity_min; velocity_max; diameter_min; diameter_max;
                hazardous]).
  intros Hrun f approach Hin.
  destruct (existsb py.is_not_None args) eqn:Hset.
  - rewrite (create_filters_run date start_date end_date distance_min
               distance_max velocity_min velocity_max diameter_min
               diameter_max hazardous log Hset) in Hrun.
    fold args in Hrun. cbn [fst] in Hrun.
    assert (Hret : returned
                   = map Some (builder_spec.selected
                                 (combine builder_spec.criteria args)))
      by (injection Hrun as <-; reflexivity).
    rewrite Hret in Hin. clear Hret Hrun.
    apply in_map_iff in Hin. destruct Hin as [g [Hg Hin]].
    injection Hg as ->. destruct f as [c o v].
    apply selected_In in Hin. destruct Hin as [_ Hin].
    assert (Hc : c <> filters.AttributeFilter).
    { simpl in Hin.
      repeat (destruct Hin as [Hin | Hin]; [injection Hin as <- <- <- |]);
        try contradiction; discriminate. }
    split; [exact Hc |].
    unfold filters.call, filters.get.
    cbn [filters.cls filters.op filters.value].
    destruct c; try (now elim Hc);
      try (destruct (CloseApproach.neo approach); [| discriminate]);
      cbn [py.bind]; apply apply_never_unsupported.
  - unfold filters.create_filters in Hrun. fold args in Hrun.
    rewrite (filter_unset_length args Hset) in Hrun. discriminate.
Qed.

Lemma create_filters_never_base_witness :
  filters.call (filters.mk filters.DateFilter operator.ge (py.VStr "tomorrow"))
    scenario.approach
  <> py.Raise py.UnsupportedCriterionError.
Proof.
  refine (proj2 (create_filters_never_base py.VNone (py.VStr "tomorrow")
                   py.VNone py.VNone py.VNone py.VNone py.VNone py.VNone
                   py.VNone py.VNone []
                   [Some (filters.mk filters.DateFilter operator.ge
                            (py.VStr "tomorrow"))]
                   eq_refl
                   (filters.mk filters.DateFilter operator.ge
                      (py.VStr "tomorrow"))
                   scenario.approach _)).
  left. reflexivity.
Defined.
